(** * dephell: the setup.py converter and the package manager driver

    A shallow embedding of [dephell/converters/setuppy.py] and
    [dephell/package_manager.py].

    Python values are embedded as follows.
    - A [str] is a [string]: one [ascii] per code point, so the embedding
      covers the strings whose code points are below 256.
    - [bytes] are [list byte].
    - Values whose type the code does not fix (attributes of the distribution
      object, keyword values) are [pyval]: [None], [str], [list], [tuple] and
      [dict] with string keys, kept in insertion order.
    - A call that can raise returns an [outcome]; code that also reads or
      changes the process (files, working directory, log records) runs in
      the state-and-exception monad [M] over [World].
    - Code of other packages (pathlib, the interpreter behind [exec],
      setuptools, packaging, dephell's models) is received through the
      classes [ModelTypes] and [Collaborators]. *)

From Stdlib Require Import ZArith Lia Ascii String List Bool.
From stdpp Require Import base list strings gmap sorting.

Import ListNotations.
Local Open Scope string_scope.
Local Open Scope list_scope.

(** ** Python [str] operations *)

Module PyStr.

(** [str.isspace] on one code point below 256: TAB..CR, FS..US, space,
    NEL (0x85) and NBSP (0xA0). *)
Definition is_space (c : ascii) : bool :=
  let n := nat_of_ascii c in
  ((9 <=? n)%nat && (n <=? 13)%nat) || ((28 <=? n)%nat && (n <=? 32)%nat)
  || (n =? 133)%nat || (n =? 160)%nat.

(** [s.lstrip()] *)
Fixpoint lstrip (s : string) : string :=
  match s with
  | EmptyString => EmptyString
  | String c s' => if is_space c then lstrip s' else s
  end.

(** [s.rstrip()] *)
Fixpoint rstrip (s : string) : string :=
  match s with
  | EmptyString => EmptyString
  | String c s' =>
      match rstrip s' with
      | EmptyString => if is_space c then EmptyString else String c EmptyString
      | r => String c r
      end
  end.

(** [s.strip()] *)
Definition strip (s : string) : string := rstrip (lstrip s).

(** every code point of [s] is whitespace (true of the empty string) *)
Fixpoint all_space (s : string) : bool :=
  match s with
  | EmptyString => true
  | String c s' => is_space c && all_space s'
  end.

(** [s.startswith(p)] *)
Fixpoint startswith (p s : string) : bool :=
  match p, s with
  | EmptyString, _ => true
  | String a p', String b s' => Ascii.eqb a b && startswith p' s'
  | String _ _, EmptyString => false
  end.

(** [sub in s] for a non-empty [sub] *)
Fixpoint contains (sub s : string) : bool :=
  match s with
  | EmptyString => false
  | String _ s' => startswith sub s || contains sub s'
  end.

(** [c in s] for a single character [c] *)
Fixpoint has_char (c : ascii) (s : string) : bool :=
  match s with
  | EmptyString => false
  | String a s' => Ascii.eqb c a || has_char c s'
  end.

(** The scan of [s.replace(old, new)] for a non-empty [old]: left to right,
    occurrences do not overlap. [skip] counts the characters of a matched
    occurrence still to be dropped. *)
Fixpoint replace_from (old new : string) (skip : nat) (s : string) : string :=
  match s with
  | EmptyString => EmptyString
  | String c s' =>
      match skip with
      | S k => replace_from old new k s'
      | O =>
          if startswith old s
          then new +:+ replace_from old new (String.length old - 1) s'
          else String c (replace_from old new 0 s')
      end
  end.

(** [s.replace(old, new)], [old] non-empty *)
Definition replace (old new s : string) : string := replace_from old new 0 s.

(** [sep.join(parts)] *)
Fixpoint join (sep : string) (parts : list string) : string :=
  match parts with
  | [] => EmptyString
  | [p] => p
  | p :: rest => p +:+ sep +:+ join sep rest
  end.

(** iterating over a [str] yields its characters as one-character strings *)
Fixpoint chars (s : string) : list string :=
  match s with
  | EmptyString => []
  | String c s' => String c EmptyString :: chars s'
  end.

(** [s.encode('utf8')] for code points below 256: one byte below 128, two
    bytes (110000xx 10xxxxxx) from 128 on. *)
Definition encode_char (c : ascii) : list Byte.byte :=
  let n := N_of_ascii c in
  if (n <? 128)%N then [byte_of_ascii c]
  else
    let hi := N.lor 192 (N.shiftr n 6) in
    let lo := N.lor 128 (N.land n 63) in
    [byte_of_ascii (ascii_of_N hi); byte_of_ascii (ascii_of_N lo)].

Fixpoint encode_utf8 (s : string) : list Byte.byte :=
  match s with
  | EmptyString => []
  | String c s' => encode_char c ++ encode_utf8 s'
  end.

(** [b.decode('utf8')] for the byte sequences that encode code points below
    256; [None] stands for every other sequence (an invalid one, or one
    that encodes a code point from 256 on). *)
Fixpoint decode_utf8 (l : list Byte.byte) : option string :=
  match l with
  | [] => Some EmptyString
  | b0 :: l' =>
      let n0 := Byte.to_N b0 in
      if (n0 <? 128)%N then
        match decode_utf8 l' with
        | Some s => Some (String (ascii_of_N n0) s)
        | None => None
        end
      else
        match l' with
        | b1 :: l'' =>
            let n1 := Byte.to_N b1 in
            if ((n0 =? 194)%N || (n0 =? 195)%N)
               && (128 <=? n1)%N && (n1 <? 192)%N
            then
              match decode_utf8 l'' with
              | Some s =>
                  Some (String (ascii_of_N
                          (N.lor (N.shiftl (N.land n0 31) 6) (N.land n1 63))) s)
              | None => None
              end
            else None
        | [] => None
        end
  end.

(** [s1 <= s2] on strings: lexicographic, by code point *)
Definition str_le (s1 s2 : string) : bool :=
  match String.compare s1 s2 with
  | Gt => false
  | _ => true
  end.

(** [sorted(l)] for a list of strings: a stable insertion sort *)
Fixpoint insert_sorted (x : string) (l : list string) : list string :=
  match l with
  | [] => [x]
  | y :: l' => if str_le x y then x :: l else y :: insert_sorted x l'
  end.

Definition sorted (l : list string) : list string := foldr insert_sorted [] l.

End PyStr.

(** ** Python values, exceptions and effects *)

Module Py.

(** The values the converter meets where Python fixes no type. A [PyDict]
    keeps its items in insertion order. *)
#[warnings="-register-all"]
Inductive pyval : Type :=
| PyNone
| PyStr (s : string)
| PyList (l : list pyval)
| PyTuple (l : list pyval)
| PyDict (d : list (string * pyval)).

(** [bool(v)] *)
Definition truthy (v : pyval) : bool :=
  match v with
  | PyNone | PyStr EmptyString | PyList [] | PyTuple [] | PyDict [] => false
  | _ => true
  end.

(** [v == s] for a string literal [s] *)
Definition eq_str (v : pyval) (s : string) : bool :=
  match v with
  | PyStr t => String.eqb t s
  | _ => false
  end.

(** [type(v).__name__] *)
Definition type_name (v : pyval) : string :=
  match v with
  | PyNone => "NoneType"
  | PyStr _ => "str"
  | PyList _ => "list"
  | PyTuple _ => "tuple"
  | PyDict _ => "dict"
  end.

(** A raised exception: [type(e).__name__], [str(e)], and whether it is an
    instance of [Exception] ([SystemExit], [KeyboardInterrupt] and
    [GeneratorExit] derive from [BaseException] only). *)
Record pyexc : Type := mk_exc {
  exc_type : string;
  exc_msg : string;
  exc_is_Exception : bool;
}.

Definition AttributeError (v : pyval) (attr : string) : pyexc :=
  mk_exc "AttributeError"
    ("'" +:+ type_name v +:+ "' object has no attribute '" +:+ attr +:+ "'")
    true.

Definition TypeError_not_iterable (v : pyval) : pyexc :=
  mk_exc "TypeError" ("'" +:+ type_name v +:+ "' object is not iterable") true.

(** The result of a call: a value, or a raised exception. *)
Inductive outcome (A : Type) : Type :=
| Ret (a : A)
| Raise (e : pyexc).
Arguments Ret {A} a.
Arguments Raise {A} e.

#[export] Instance outcome_ret : MRet outcome := fun A a => Ret a.
#[export] Instance outcome_bind : MBind outcome := fun A B k c =>
  match c with
  | Ret a => k a
  | Raise e => Raise e
  end.

(** [for x in l: s = body(x, s)], stopping at the first exception *)
Fixpoint foldM {A S : Type} (body : A -> S -> outcome S) (l : list A) (s : S)
  : outcome S :=
  match l with
  | [] => Ret s
  | x :: l' => s' ← body x s; foldM body l' s'
  end.

(** [iter(v)]: the elements of a list or tuple, the characters of a string,
    the keys of a dict. *)
Definition py_iter (v : pyval) : outcome (list pyval) :=
  match v with
  | PyList l | PyTuple l => Ret l
  | PyStr s => Ret (PyStr <$> PyStr.chars s)
  | PyDict d => Ret ((fun kv => PyStr (fst kv)) <$> d)
  | PyNone => Raise (TypeError_not_iterable v)
  end.

(** [v.items()] *)
Definition py_items (v : pyval) : outcome (list (string * pyval)) :=
  match v with
  | PyDict d => Ret d
  | _ => Raise (AttributeError v "items")
  end.

(** [v.strip()] *)
Definition py_strip (v : pyval) : outcome string :=
  match v with
  | PyStr s => Ret (PyStr.strip s)
  | _ => Raise (AttributeError v "strip")
  end.

(** A [defaultdict(list)] with string keys: [d[k].append(v)]. *)
Fixpoint dd_append {A : Type} (k : string) (v : A) (d : list (string * list A))
  : list (string * list A) :=
  match d with
  | [] => [(k, [v])]
  | (k', vs) :: d' =>
      if String.eqb k k' then (k', vs ++ [v]) :: d'
      else (k', vs) :: dd_append k v d'
  end.

(** [d.get(k, [])] on such a dict *)
Fixpoint dd_get {A : Type} (k : string) (d : list (string * list A)) : list A :=
  match d with
  | [] => []
  | (k', vs) :: d' => if String.eqb k k' then vs else dd_get k d'
  end.

(** [d[k] = v] on an insertion-ordered dict *)
Fixpoint dict_set {A : Type} (k : string) (v : A) (d : list (string * A))
  : list (string * A) :=
  match d with
  | [] => [(k, v)]
  | (k', v') :: d' =>
      if String.eqb k k' then (k', v) :: d' else (k', v') :: dict_set k v d'
  end.

(** [k in d] *)
Definition dict_has {A : Type} (k : string) (d : list (string * A)) : bool :=
  existsb (fun kv => String.eqb k (fst kv)) d.

(** [d.get(k)] *)
Fixpoint dict_lookup {A : Type} (k : string) (d : list (string * A)) : option A :=
  match d with
  | [] => None
  | (k', v) :: d' => if String.eqb k k' then Some v else dict_lookup k d'
  end.

(** [d[k]], with [dflt] standing for the [KeyError] case the callers exclude *)
Fixpoint dict_get {A : Type} (k : string) (d : list (string * A)) (dflt : A) : A :=
  match d with
  | [] => dflt
  | (k', v) :: d' => if String.eqb k k' then v else dict_get k d' dflt
  end.

(** *** The process: files, working directory, log records *)

Inductive level : Type := DEBUG | ERROR.

Record log_record : Type := mk_log {
  log_logger : string;
  log_level : level;
  log_message : string;
}.

(** [files p] is what [Path(p).read_text('utf-8')] does: the text, or the
    exception ([FileNotFoundError], [UnicodeDecodeError], ...). *)
Record World : Type := mk_world {
  files : string -> outcome string;
  cwd : string;
  logs : list log_record;
}.

Definition set_cwd (d : string) (w : World) : World :=
  mk_world (files w) d (logs w).

Definition add_log (r : log_record) (w : World) : World :=
  mk_world (files w) (cwd w) (logs w ++ [r]).

(** Computations that read and change the process and may raise. *)
Definition M (A : Type) : Type := World -> outcome A * World.

#[export] Instance M_ret : MRet M := fun A a w => (Ret a, w).
#[export] Instance M_bind : MBind M := fun A B k c w =>
  match c w with
  | (Ret a, w') => k a w'
  | (Raise e, w') => (Raise e, w')
  end.

(** a call that touches nothing of the process *)
Definition lift {A : Type} (c : outcome A) : M A := fun w => (c, w).

(** [Path(p).read_text('utf-8')] *)
Definition read_text (p : string) : M string := fun w => (files w p, w).

(** [getLogger(name).error(msg)] and [.debug(msg)] *)
Definition logger_error (name msg : string) : M unit :=
  fun w => (Ret tt, add_log (mk_log name ERROR msg) w).

Definition logger_debug (name msg : string) : M unit :=
  fun w => (Ret tt, add_log (mk_log name DEBUG msg) w).

(** Modelled from the spec: [dephell.context_tools.chdir], which is not among
    the sources. "Working directory changed only for the duration of this
    call, then restored", "always restored via scoped acquisition, even on
    exceptions". *)
Definition chdir {A : Type} (dir : string) (body : M A) : M A := fun w =>
  let prev := cwd w in
  let '(r, w') := body (set_cwd dir w) in
  (r, set_cwd prev w').

End Py.

(** ** dephell/converters/setuppy.py *)

Module SetupPy.
Import Py.

(** The logger of the module: [getLogger('dephell.converters.setuppy')]. *)
Definition logger : string := "dephell.converters.setuppy".

(** What [io.StringIO(s)] and [io.BytesIO(b)] hold. *)
Inductive buffer : Type :=
| StringIO (content : string)
| BytesIO (content : list Byte.byte).

(** [_patched_open(fname, mode='r', *args, **kwargs)] *)
Definition _patched_open (fname mode : string) : buffer :=
  if PyStr.has_char "b"%char mode
  then BytesIO (PyStr.encode_utf8 fname)
  else StringIO fname.

(** the default of the [mode] parameter *)
Definition default_mode : string := "r".

(** A value of the globals handed to [exec]: plain data, or the function the
    name [open] is bound to. *)
Inductive gval : Type :=
| GVal (v : pyval)
| GOpen (f : string -> string -> buffer).

(** The object [load] reads the metadata from (a distribution): the
    attributes [getattr] finds on its [.metadata] and on the object itself. *)
Module Distribution.
Record t : Type := mk {
  metadata : gmap string pyval;
  attrs : gmap string pyval;
}.
End Distribution.

(** [getattr(obj, name, dflt)] on an attribute table *)
Definition getattr (obj : gmap string pyval) (name : string) (dflt : pyval)
  : pyval :=
  default dflt (obj !! name).

(** The types of the other packages the converter handles without looking
    inside: [dephell_specifier.RangeSpecifier], [dephell.controllers.Readme],
    [dephell.models.EntryPoint], [packaging.requirements.Requirement], the
    marker returned by [_split_extra_and_marker], and everything of a
    [dephell.models.Dependency] but its [envs]. *)
Class ModelTypes : Type := {
  RangeSpecifier : Type;
  Readme : Type;
  EntryPoint : Type;
  PkgRequirement : Type;
  Marker : Type;
  DependencyBody : Type;
}.

(** [dephell.models.Author] *)
Module Author.
Record t : Type := mk {
  name : string;
  mail : string;
}.
End Author.

(** [dephell.models.Dependency], as far as [load] touches it: the attribute
    [envs], assigned after construction. *)
Module Dependency.
Record t {MT : ModelTypes} : Type := mk {
  body : DependencyBody;
  envs : gset string;
}.

(** [dep.envs = e] *)
Definition set_envs {MT : ModelTypes} (e : gset string) (dep : t) : t :=
  mk _ (body dep) e.
End Dependency.

(** [dephell.models.RootDependency]: the attributes [load] sets and [dumps]
    reads. *)
Module RootDependency.
Record t {MT : ModelTypes} : Type := mk {
  raw_name : string;
  version : string;
  description : string;
  license : string;
  keywords : list string;
  classifiers : list string;
  platforms : list string;
  python : RangeSpecifier;
  readme : option Readme;
  links : list (string * string);
  authors : list Author.t;
  entrypoints : list EntryPoint;
  dependencies : list Dependency.t;
}.

(** the constructor call of [load]: the other attributes take their defaults *)
Definition new {MT : ModelTypes} (raw_name version description license : string)
  (keywords classifiers platforms : list string) (python : RangeSpecifier)
  (readme : option Readme) : t :=
  mk _ raw_name version description license keywords classifiers platforms
    python readme [] [] [] [].

(** [root.links[key] = link] *)
Definition set_link {MT : ModelTypes} (key link : string) (r : t) : t :=
  mk _ (raw_name r) (version r) (description r) (license r) (keywords r)
    (classifiers r) (platforms r) (python r) (readme r)
    (dict_set key link (links r)) (authors r) (entrypoints r) (dependencies r).

(** [root.authors += (a,)] *)
Definition add_author {MT : ModelTypes} (a : Author.t) (r : t) : t :=
  mk _ (raw_name r) (version r) (description r) (license r) (keywords r)
    (classifiers r) (platforms r) (python r) (readme r)
    (links r) (authors r ++ [a]) (entrypoints r) (dependencies r).

(** [root.entrypoints = tuple(eps)] *)
Definition set_entrypoints {MT : ModelTypes} (eps : list EntryPoint) (r : t) : t :=
  mk _ (raw_name r) (version r) (description r) (license r) (keywords r)
    (classifiers r) (platforms r) (python r) (readme r)
    (links r) (authors r) eps (dependencies r).

(** Modelled from the spec: [RootDependency.attach_dependencies], which is not
    among the sources. The root keeps "an owned dependency collection"; the
    attached dependencies are added to it, in order. *)
Definition attach_dependencies {MT : ModelTypes} (deps : list Dependency.t) (r : t)
  : t :=
  mk _ (raw_name r) (version r) (description r) (license r) (keywords r)
    (classifiers r) (platforms r) (python r) (readme r)
    (links r) (authors r) (entrypoints r) (dependencies r ++ deps).
End RootDependency.

(** [dephell.models.Requirement], as [dumps] reads it. [extras] and
    [main_envs] are given in their iteration order; [version] and [markers]
    may be [None]. *)
Module Requirement.
Record t : Type := mk {
  name : string;
  extras : list string;
  version : option string;
  markers : option string;
  main_envs : list string;
}.
End Requirement.

(** [project.package], a computed attribute of the root: the package paths
    as strings, and the data rules as [(rule.module, rule.relative)]. *)
Module Package.
Record t : Type := mk {
  packages : list string;
  data : list (string * string);
}.
End Package.

(** What [exec] leaves behind: the globals as the script changed them, the
    exception it raised if any, and the process. *)
Record exec_result : Type := mk_exec_result {
  exec_globals : gmap string gval;
  exec_raised : option pyexc;
  exec_world : World;
}.

(** The code of other modules that [load] and [dumps] call. *)
Class Collaborators {MT : ModelTypes} : Type := {
  (** [path.parent] and [path.name], as strings; a path is the string of its
      [pathlib.Path] *)
  path_parent : string -> string;
  path_name : string -> string;
  (** [exec(compile(source, filename, 'exec'), globe)] *)
  py_exec : string -> string -> gmap string gval -> World -> exec_result;
  (** [distutils.core.run_setup(script_name)] *)
  run_setup : string -> M Distribution.t;
  (** [setuptools.dist.Distribution(attrs)] *)
  Distribution_new : gval -> outcome Distribution.t;
  (** [RangeSpecifier(text)] *)
  RangeSpecifier_new : string -> outcome RangeSpecifier;
  (** [Readme.from_code(path=path)] *)
  Readme_from_code : string -> M (option Readme);
  (** [EntryPoint.parse(text=text, group=group)] *)
  EntryPoint_parse : pyval -> string -> outcome EntryPoint;
  (** [packaging.requirements.Requirement(text)] *)
  Requirement_new : pyval -> outcome PkgRequirement;
  (** [BaseConverter._split_extra_and_marker(key)] *)
  _split_extra_and_marker : string -> outcome (string * option Marker);
  (** [DependencyMaker.from_requirement(source=root, req=req, marker=marker)] *)
  DependencyMaker_from_requirement :
    RootDependency.t -> PkgRequirement -> option Marker ->
    outcome (list Dependency.t);
  (** [bool(project.python)] and [str(project.python.peppify())] *)
  RangeSpecifier_bool : RangeSpecifier -> bool;
  RangeSpecifier_peppify_str : RangeSpecifier -> string;
  (** [entrypoint.group] and [str(entrypoint)] *)
  EntryPoint_group : EntryPoint -> string;
  EntryPoint_str : EntryPoint -> string;
  (** [readme.to_rst().as_code()] *)
  Readme_to_rst_as_code : Readme -> outcome string;
  (** [repr(value)] *)
  py_repr : pyval -> string;
  (** yapf's [FormatCode(content, style_config=CreateGoogleStyle())] and
      autopep8's [fix_code(content)]; [None] when the import failed *)
  FormatCode : option (string -> outcome string);
  fix_code : option (string -> outcome string);
}.

Section Converter.
Context {MT : ModelTypes} {C : Collaborators}.

(** *** Safe extraction *)

(** The globals [_execute] hands to [exec]. *)
Definition initial_globals (path : string) : gmap string gval :=
  <["__file__" := GVal (PyStr path)]>
    (<["__name__" := GVal (PyStr "__main__")]>
      (<["open" := GOpen _patched_open]> ∅)).

(** The [try: exec(...) except Exception as e: logger.error(...)] statement:
    an exception that is an instance of [Exception] is logged and execution
    goes on; any other propagates. *)
Definition exec_logged (new_source filename : string) (globe : gmap string gval)
  : M (gmap string gval) := fun w =>
  let r := py_exec new_source filename globe w in
  match exec_raised r with
  | None => (Ret (exec_globals r), exec_world r)
  | Some e =>
      if exc_is_Exception e
      then (Ret (exec_globals r),
            add_log (mk_log logger ERROR (exc_type e +:+ ": " +:+ exc_msg e))
              (exec_world r))
      else (Raise e, exec_world r)
  end.

(** [SetupPyConverter._execute(path)] *)
Definition _execute (path : string) : M (option Distribution.t) :=
  source ← read_text path;
  let new_source := PyStr.replace "setup(" "_dist = dict(" source in
  if String.eqb new_source source then
    logger_error logger "cannot modify source";; mret None
  else
    globe ← chdir (path_parent path)
              (exec_logged new_source (path_name path) (initial_globals path));
    match globe !! "_dist" with
    | None | Some (GVal PyNone) =>
        logger_error logger "distribution was not called";; mret None
    | Some dist => d ← lift (Distribution_new dist); mret (Some d)
    end.

(** *** Field getters *)

(** [SetupPyConverter._get(msg, name)] *)
Definition _get (msg : Distribution.t) (name : string) : outcome string :=
  let value := getattr (Distribution.metadata msg) name PyNone in
  let value :=
    if truthy value then value else getattr (Distribution.attrs msg) name PyNone in
  if negb (truthy value) then Ret ""
  else if eq_str value "UNKNOWN" then Ret ""
  else py_strip value.

(** One round of the generator of [_get_list]:
    [value for value in values if value != 'UNKNOWN' and value.strip()]. *)
Definition _get_list_step (value : pyval) (acc : list string)
  : outcome (list string) :=
  if eq_str value "UNKNOWN" then Ret acc
  else
    match value with
    | PyStr s => Ret (if String.eqb (PyStr.strip s) "" then acc else acc ++ [s])
    | _ => Raise (AttributeError value "strip")
    end.

(** [SetupPyConverter._get_list(msg, name)] *)
Definition _get_list (msg : Distribution.t) (name : string)
  : outcome (list string) :=
  let values := getattr (Distribution.attrs msg) name PyNone in
  if negb (truthy values) then Ret []
  else elems ← py_iter values; foldM _get_list_step elems [].

(** [s or dflt] on strings *)
Definition str_or (s dflt : string) : string :=
  if String.eqb s "" then dflt else s.

(** *** [SetupPyConverter.load] *)

(** Lines 80-83: safe extraction, then the fallback. *)
Definition load_info (path : string) : M Distribution.t :=
  info ← _execute path;
  match info with
  | Some i => mret i
  | None => chdir (path_parent path) (run_setup (path_name path))
  end.

(** Lines 85-98: the constructor call, its arguments evaluated in order. *)
Definition load_root (path : string) (info : Distribution.t)
  : M RootDependency.t :=
  raw_name ← lift (_get info "name");
  version ← lift (_get info "version");
  description ← lift (_get info "description");
  license ← lift (_get info "license");
  keywords ← lift (_get_list info "keywords");
  classifiers ← lift (_get_list info "classifiers");
  platforms ← lift (_get_list info "platforms");
  python_requires ← lift (_get info "python_requires");
  python ← lift (RangeSpecifier_new python_requires);
  readme ← Readme_from_code path;
  mret (RootDependency.new raw_name (str_or version "0.0.0") description
          license keywords classifiers platforms python readme).

(** Lines 101-104: links. *)
Definition load_links (info : Distribution.t) (root : RootDependency.t)
  : outcome RootDependency.t :=
  foldM (fun '(key, name) root =>
           link ← _get info name;
           mret (if String.eqb link "" then root
                 else RootDependency.set_link key link root))
        [("home", "url"); ("download", "download_url")] root.

(** Lines 107-112: authors. *)
Definition load_authors (info : Distribution.t) (root : RootDependency.t)
  : outcome RootDependency.t :=
  foldM (fun name root =>
           author ← _get info name;
           if String.eqb author "" then mret root
           else
             mail ← _get info (name +:+ "_email");
             mret (RootDependency.add_author (Author.mk author mail) root))
        ["author"; "maintainer"] root.

(** Lines 115-119: entry points. *)
Definition load_entrypoints (info : Distribution.t) (root : RootDependency.t)
  : outcome RootDependency.t :=
  let table := getattr (Distribution.attrs info) "entry_points" (PyDict []) in
  let table := if truthy table then table else PyDict [] in
  items ← py_items table;
  entrypoints ←
    foldM (fun '(group, content) entrypoints =>
             texts ← py_iter content;
             foldM (fun entrypoint entrypoints =>
                      e ← EntryPoint_parse entrypoint group;
                      mret (entrypoints ++ [e]))
                   texts entrypoints)
          items [];
  mret (RootDependency.set_entrypoints entrypoints root).

(** Lines 122-126: the unconditional dependencies. *)
Definition load_install_requires (info : Distribution.t)
  (root : RootDependency.t) : outcome RootDependency.t :=
  texts ← _get_list info "install_requires";
  deps ←
    foldM (fun text deps =>
             req ← Requirement_new (PyStr text);
             made ← DependencyMaker_from_requirement root req None;
             mret (deps ++ made))
          texts [];
  mret (RootDependency.attach_dependencies deps root).

(** Line 131: [{extra} if extra == 'dev' else {'main', extra}] *)
Definition extra_envs (extra : string) : gset string :=
  if String.eqb extra "dev" then {[ extra ]} else {[ "main"; extra ]}.

(** Lines 132-137: the requirements of one extra. *)
Definition load_extra_reqs (marker : option Marker) (envs : gset string)
  (reqs : list pyval) (root : RootDependency.t) : outcome RootDependency.t :=
  foldM (fun text root =>
           req ← Requirement_new text;
           deps ← DependencyMaker_from_requirement root req marker;
           let deps := Dependency.set_envs envs <$> deps in
           mret (RootDependency.attach_dependencies deps root))
        reqs root.

(** Lines 129-137: extras. *)
Definition load_extras (info : Distribution.t) (root : RootDependency.t)
  : outcome RootDependency.t :=
  items ← py_items (getattr (Distribution.attrs info) "extras_require" (PyDict []));
  foldM (fun '(key, reqs) root =>
           '(extra, marker) ← _split_extra_and_marker key;
           let envs := extra_envs extra in
           reqs ← py_iter reqs;
           load_extra_reqs marker envs reqs root)
        items root.

(** Lines 100-139: everything after the constructor call. *)
Definition load_fill (info : Distribution.t) (root : RootDependency.t)
  : outcome RootDependency.t :=
  root ← load_links info root;
  root ← load_authors info root;
  root ← load_entrypoints info root;
  root ← load_install_requires info root;
  load_extras info root.

Definition load (path : string) : M RootDependency.t :=
  info ← load_info path;
  root ← load_root path info;
  lift (load_fill info root).

(** *** [SetupPyConverter.can_parse] *)

(** [SetupPyConverter.can_parse(path, content)]; [content] is [None] when
    the caller gives none. *)
Definition can_parse (path : string) (content : option string) : bool :=
  if String.eqb (path_name path) "setup.py" then true
  else
    match content with
    | None | Some EmptyString => false
    | Some content =>
        if negb (PyStr.contains "setuptools" content)
           && negb (PyStr.contains "distutils" content)
        then false
        else PyStr.contains "setup(" content
    end.

(** *** [SetupPyConverter.dumps] *)

(** [TEMPLATE.format(kwargs=kwargs, readme=readme)] *)
Definition TEMPLATE (kwargs readme : string) : string :=
  "
# -*- coding: utf-8 -*-

# DO NOT EDIT THIS FILE!
# This file has been autogenerated by dephell <3
# https://github.com/dephell/dephell

try:
    from setuptools import setup
except ImportError:
    from distutils.core import setup

" +:+ readme +:+ "

setup(
    long_description=readme,
    " +:+ kwargs +:+ ",
)
".

(** [bool(s)] for a string, and for a value that is a string or [None] *)
Definition str_truthy (s : string) : bool := negb (String.eqb s "").

Definition opt_truthy (o : option string) : bool :=
  match o with
  | Some s => str_truthy s
  | None => false
  end.

(** [SetupPyConverter._format_req(req)] *)
Definition _format_req (req : Requirement.t) : string :=
  let line := Requirement.name req in
  let line :=
    match Requirement.extras req with
    | [] => line
    | extras => line +:+ "[" +:+ PyStr.join "," extras +:+ "]"
    end in
  let line :=
    match Requirement.version req with
    | Some version => if str_truthy version then line +:+ version else line
    | None => line
    end in
  let line :=
    match Requirement.markers req with
    | Some markers => if str_truthy markers then line +:+ "; " +:+ markers else line
    | None => line
    end in
  line.

(** [bool(req.main_envs)] *)
Definition has_main_envs (req : Requirement.t) : bool :=
  match Requirement.main_envs req with
  | [] => false
  | _ => true
  end.

(** Line 198: [[self._format_req(req=req) for req in reqs if not req.main_envs]] *)
Definition dumps_install_requires (reqs : list Requirement.t) : list string :=
  _format_req <$> filter (fun req => has_main_envs req = false) reqs.

(** Lines 203-206: the body of the loop over [reqs] that fills [extras]. *)
Definition dumps_extras_step (extras : list (string * list string))
  (req : Requirement.t) : list (string * list string) :=
  if has_main_envs req then
    let formatted := _format_req req in
    fold_left (fun extras env => dd_append env formatted extras)
      (Requirement.main_envs req) extras
  else extras.

(** Lines 201-206: [extras], a [defaultdict(list)]. *)
Definition dumps_extras (reqs : list Requirement.t)
  : list (string * list string) :=
  fold_left dumps_extras_step reqs [].

(** a list of strings and a dict of such lists as Python values *)
Definition str_list (l : list string) : pyval := PyList (PyStr <$> l).

Definition str_list_dict (d : list (string * list string)) : pyval :=
  PyDict ((fun kv => (fst kv, str_list (snd kv))) <$> d).

(** Lines 145-196: the pairs appended to [content] before the requirements. *)
Definition dumps_metadata (project : RootDependency.t) (package : Package.t)
  : list (string * pyval) :=
  let links := RootDependency.links project in
  [("name", PyStr (RootDependency.raw_name project));
   ("version", PyStr (RootDependency.version project))]
  ++ (if str_truthy (RootDependency.description project)
      then [("description", PyStr (RootDependency.description project))]
      else [])
  ++ (if RangeSpecifier_bool (RootDependency.python project)
      then [("python_requires",
             PyStr (RangeSpecifier_peppify_str (RootDependency.python project)))]
      else [])
  ++ flat_map (fun '(key, name) =>
                 if dict_has key links
                 then [(name, PyStr (dict_get key links ""))] else [])
       [("home", "url"); ("download", "download_url")]
  ++ (match links with
      | [] => []
      | _ => [("project_urls", PyDict ((fun kv => (fst kv, PyStr (snd kv))) <$> links))]
      end)
  ++ (match RootDependency.authors project with
      | [] => []
      | author :: _ =>
          ("author", PyStr (Author.name author))
          :: (if str_truthy (Author.mail author)
              then [("author_email", PyStr (Author.mail author))] else [])
      end)
  ++ (match RootDependency.authors project with
      | _ :: author :: _ =>
          ("maintainer", PyStr (Author.name author))
          :: (if str_truthy (Author.mail author)
              then [("maintainer_email", PyStr (Author.mail author))] else [])
      | _ => []
      end)
  ++ (if str_truthy (RootDependency.license project)
      then [("license", PyStr (RootDependency.license project))] else [])
  ++ (match RootDependency.keywords project with
      | [] => []
      | keywords => [("keywords", PyStr (PyStr.join " " keywords))]
      end)
  ++ (match RootDependency.classifiers project with
      | [] => []
      | classifiers => [("classifiers", str_list classifiers)]
      end)
  ++ (match RootDependency.platforms project with
      | [] => []
      | platforms => [("platforms", PyTuple (PyStr <$> platforms))]
      end)
  ++ (match RootDependency.entrypoints project with
      | [] => []
      | entrypoints =>
          [("entry_points",
            str_list_dict
              (fold_left (fun d entrypoint =>
                            dd_append (EntryPoint_group entrypoint)
                              (EntryPoint_str entrypoint) d)
                 entrypoints []))]
      end)
  ++ [("packages", str_list (PyStr.sorted (Package.packages package)));
      ("package_data",
       str_list_dict
         ((fun kv => (fst kv, PyStr.sorted (snd kv)))
          <$> fold_left (fun d rule => dd_append (fst rule) (snd rule) d)
                (Package.data package) []))].

(** Lines 145-208: the list [content] of [(keyword, value)] pairs. *)
Definition dumps_content (reqs : list Requirement.t)
  (project : RootDependency.t) (package : Package.t) : list (string * pyval) :=
  dumps_metadata project package
  ++ [("install_requires", str_list (dumps_install_requires reqs))]
  ++ (match dumps_extras reqs with
      | [] => []
      | extras => [("extras_require", str_list_dict extras)]
      end).

(** [SetupPyConverter.dumps(reqs, project)]; [package] is [project.package]. *)
Definition dumps (reqs : list Requirement.t) (project : RootDependency.t)
  (package : Package.t) : outcome string :=
  let content := dumps_content reqs project package in
  readme ←
    match RootDependency.readme project with
    | Some r => Readme_to_rst_as_code r
    | None => Ret "readme = ''"
    end;
  let content :=
    PyStr.join ",
    " ((fun kv => fst kv +:+ "=" +:+ py_repr (snd kv)) <$> content) in
  let content := TEMPLATE content readme in
  content ← match FormatCode with Some f => f content | None => Ret content end;
  content ← match fix_code with Some f => f content | None => Ret content end;
  mret content.

(** *** Vocabulary of the statements about [load] *)

(** The value [_get] examines: the attribute of [.metadata] when it is
    non-empty, the attribute of the object otherwise. *)
Definition examined (msg : Distribution.t) (name : string) : pyval :=
  let m := getattr (Distribution.metadata msg) name PyNone in
  if truthy m then m else getattr (Distribution.attrs msg) name PyNone.

(** The dependencies [DependencyMaker.from_requirement] makes of the
    requirement texts of one extra, before their [envs] are assigned. *)
Inductive made_from (marker : option Marker)
  : list pyval -> list Dependency.t -> Prop :=
| made_nil : made_from marker [] []
| made_cons (text : pyval) (req : PkgRequirement) (root : RootDependency.t)
    (made : list Dependency.t) (texts : list pyval) (rest : list Dependency.t) :
    Requirement_new text = Ret req ->
    DependencyMaker_from_requirement root req marker = Ret made ->
    made_from marker texts rest ->
    made_from marker (text :: texts) (made ++ rest).

(** An item of [extras_require] and what [load] makes of it: the base name
    of the extra, and the dependencies parsed from its requirement texts. *)
Definition extra_group (item : string * pyval)
  (group : string * list Dependency.t) : Prop :=
  exists marker texts,
    _split_extra_and_marker (fst item) = Ret (fst group, marker)
    /\ py_iter (snd item) = Ret texts
    /\ made_from marker texts (snd group).

(** The script text with the call rewritten, and the execution of it that
    [_execute] starts in the directory of the script. *)
Definition rewritten (source : string) : string :=
  PyStr.replace "setup(" "_dist = dict(" source.

Definition safe_exec (path source : string) (w : World) : exec_result :=
  py_exec (rewritten source) (path_name path) (initial_globals path)
    (set_cwd (path_parent path) w).

(** The fallback: [run_setup] in the directory of the script. *)
Definition fallback (path : string) : M Distribution.t :=
  chdir (path_parent path) (run_setup (path_name path)).

(** [_dist] is unset, or [None]. *)
Definition dist_missing (globe : gmap string gval) : bool :=
  match globe !! "_dist" with
  | None | Some (GVal PyNone) => true
  | Some _ => false
  end.

(** A scalar field holds a string, or nothing. *)
Definition scalar_ok (info : Distribution.t) (name : string) : Prop :=
  truthy (examined info name) = false \/ exists s, examined info name = PyStr s.

(** A list field holds strings. *)
Definition strings_ok (values : pyval) : Prop :=
  match values with
  | PyList l | PyTuple l => Forall (fun v => exists s, v = PyStr s) l
  | _ => True
  end.

(** A table maps its keys to values that can be iterated over. *)
Definition table_ok (table : pyval) : Prop :=
  exists d, table = PyDict d /\ Forall (fun kv => snd kv <> PyNone) d.

(** A distribution object whose attributes have the types [load] relies
    on. *)
Definition well_formed (info : Distribution.t) : Prop :=
  Forall (scalar_ok info)
    ["name"; "version"; "description"; "license"; "python_requires"; "url";
     "download_url"; "author"; "author_email"; "maintainer";
     "maintainer_email"]
  /\ Forall (fun name => strings_ok (getattr (Distribution.attrs info) name PyNone))
       ["keywords"; "classifiers"; "platforms"; "install_requires"]
  /\ (let table := getattr (Distribution.attrs info) "entry_points" (PyDict []) in
      truthy table = false \/ table_ok table)
  /\ table_ok (getattr (Distribution.attrs info) "extras_require" (PyDict [])).

(** [Requirement(text)] returns, and [DependencyMaker.from_requirement]
    returns for the requirement and [marker], whatever the root. *)
Definition parsed (marker : option Marker) (text : pyval) : Prop :=
  exists req,
    Requirement_new text = Ret req
    /\ forall root,
        exists deps, DependencyMaker_from_requirement root req marker = Ret deps.

(** The table [load] takes the entry points from:
    [getattr(info, 'entry_points', {}) or {}]. *)
Definition entry_points_table (info : Distribution.t) : pyval :=
  let table := getattr (Distribution.attrs info) "entry_points" (PyDict []) in
  if truthy table then table else PyDict [].

(** The constructors and parsers of the other packages accept what one run
    of [load] hands them, for the script at [path], the distribution object
    [info] and the process [w] in which the readme is looked for: the text
    of [python_requires], the path, every text of every group of entry
    points, every requirement text that [_get_list] keeps of
    [install_requires], every key of [extras_require] and every requirement
    text under it. Nothing is asked of them on other inputs. *)
Definition accepted (path : string) (info : Distribution.t) (w : World)
  : Prop :=
  (forall s, _get info "python_requires" = Ret s ->
             exists r, RangeSpecifier_new s = Ret r)
  /\ (exists r w', Readme_from_code path w = (Ret r, w'))
  /\ (forall items group content texts text,
        py_items (entry_points_table info) = Ret items ->
        In (group, content) items ->
        py_iter content = Ret texts -> In text texts ->
        exists e, EntryPoint_parse text group = Ret e)
  /\ (forall texts text,
        _get_list info "install_requires" = Ret texts -> In text texts ->
        parsed None (PyStr text))
  /\ (forall items key reqs,
        py_items (getattr (Distribution.attrs info) "extras_require" (PyDict []))
        = Ret items ->
        In (key, reqs) items ->
        exists extra marker,
          _split_extra_and_marker key = Ret (extra, marker)
          /\ forall texts text,
              py_iter reqs = Ret texts -> In text texts -> parsed marker text).

End Converter.

End SetupPy.

(** ** dephell/package_manager.py *)

Module PackageManager.
Import Py.

(** The logger of the module: [getLogger('dephell')]. *)
Definition logger : string := "dephell".

(** [PackageManager], an attrs class with the one attribute [executable]
    (given as its string). *)
Record t : Type := mk {
  executable : string;
}.

(** The installer child once waited for: its [returncode] and the bytes its
    [stderr] pipe holds. *)
Record completed : Type := mk_completed {
  returncode : Z;
  stderr : list Byte.byte;
}.

(** The operating system and the standard library under [run]. *)
Class Subprocess : Type := {
  (** [sys.executable] *)
  sys_executable : string;
  (** Both [Popen] calls, the filter reading the installer's standard
      output, and both [wait]s: the installer as it ended, or the exception
      a [Popen] raised. *)
  run_pipeline : list string -> list string -> outcome completed;
  (** [bytes.decode()] *)
  bytes_decode : list Byte.byte -> outcome string;
}.

Section Run.
Context `{S : Subprocess}.

(** [PackageManager.run], called with the arguments [args] of the
    installer *)
Definition run (self : t) (args : list string) : M Z :=
  let command_pip := [executable self; "-m"; "pip"] ++ args in
  let command_grep := [sys_executable; "-m"; "dephell.pip_cleaner"] in
  process_pip ← lift (run_pipeline command_pip command_grep);
  stderr ← lift (bytes_decode (stderr process_pip));
  (if Z.eqb (returncode process_pip) 0
   then logger_debug logger stderr
   else logger_error logger stderr);;
  mret (returncode process_pip).

End Run.

End PackageManager.

(** ** Sample collaborators, scripts and processes

    Concrete stand-ins for the code of the other packages, used to run the
    model on examples. The interpreter knows the scripts below and nothing
    else. *)

Module Sample.
Import Py SetupPy.

Definition types : ModelTypes := {|
  RangeSpecifier := string;
  Readme := string;
  EntryPoint := string * string;
  PkgRequirement := string;
  Marker := string;
  DependencyBody := string * option string;
|}.

#[local] Existing Instance types.

(** A script with metadata and two extras, one of them under a marker. *)
Definition script_extras : string :=
  "from setuptools import setup
setup(name='x', license=' MIT ',
      extras_require={'dev': ['pytest'],
                      'test:python_version<\'3\'': ['tox']})".

(** A script that leaves the interpreter before the call. *)
Definition script_exit : string :=
  "import sys
sys.exit(1)
setup(name='x')".

(** A script that raises after the call. *)
Definition script_error : string :=
  "setup(name='x')
raise ValueError('boom')".

(** A script that gives its entry points as one string in the ini format,
    which setuptools accepts. *)
Definition script_entry_points : string :=
  "setup(name='x', entry_points='[console_scripts]\nx = x:main')".

(** The keyword arguments of [script_entry_points]. *)
Definition kwargs_entry_points : pyval :=
  PyDict [("name", PyStr "x");
          ("entry_points", PyStr "[console_scripts]
x = x:main")].

(** A script with no call to [setup]. *)
Definition script_no_call : string := "print('nothing to build')".

(** A script whose rewritten text does not compile. *)
Definition script_def : string :=
  "def setup(**kwargs):
    pass".

(** The keyword arguments of [script_extras]. *)
Definition kwargs_extras : pyval :=
  PyDict [("name", PyStr "x"); ("license", PyStr " MIT ");
          ("extras_require",
           PyDict [("dev", PyList [PyStr "pytest"]);
                   ("test:python_version<'3'", PyList [PyStr "tox"])])].

(** [exec] on the rewritten sample scripts. *)
Definition exec (source filename : string) (globe : gmap string gval)
  (w : World) : exec_result :=
  if String.eqb source (rewritten script_extras) then
    mk_exec_result (<["_dist" := GVal kwargs_extras]> globe) None w
  else if String.eqb source (rewritten script_entry_points) then
    mk_exec_result (<["_dist" := GVal kwargs_entry_points]> globe) None w
  else if String.eqb source (rewritten script_error) then
    mk_exec_result (<["_dist" := GVal (PyDict [("name", PyStr "x")])]> globe)
      (Some (mk_exc "ValueError" "boom" true)) w
  else if String.eqb source (rewritten script_exit) then
    mk_exec_result globe (Some (mk_exc "SystemExit" "1" false)) w
  else
    mk_exec_result globe
      (Some (mk_exc "SyntaxError" "invalid syntax (setup.py, line 1)" true)) w.

(** The keywords that distutils stores on [.metadata]. *)
Definition metadata_names : list string :=
  ["name"; "version"; "author"; "author_email"; "maintainer";
   "maintainer_email"; "url"; "license"; "description"; "long_description";
   "keywords"; "platforms"; "classifiers"; "download_url"].

Definition is_metadata_name (k : string) : bool :=
  existsb (String.eqb k) metadata_names.

(** A distribution made of keyword arguments. *)
Definition distribution (dist : gval) : outcome Distribution.t :=
  match dist with
  | GVal (PyDict d) =>
      Ret (Distribution.mk
             (list_to_map (List.filter (fun kv => is_metadata_name (fst kv)) d))
             (list_to_map
                (List.filter (fun kv => negb (is_metadata_name (fst kv))) d)))
  | _ => Raise (mk_exc "TypeError" "attrs is not a dict" true)
  end.

Definition text_of (v : pyval) : string :=
  match v with
  | PyStr s => s
  | _ => ""
  end.

(** An extras key [name:marker] split at its first colon. *)
Fixpoint split_key (key : string) : string * option string :=
  match key with
  | EmptyString => (EmptyString, None)
  | String c key' =>
      if Ascii.eqb c ":"%char then (EmptyString, Some key')
      else let '(name, marker) := split_key key' in (String c name, marker)
  end.

(** Collaborators that accept every input; [setup] is the behaviour of
    [run_setup]. *)
Definition collaborators (setup : string -> M Distribution.t)
  : Collaborators := {|
  path_parent := fun _ => ".";
  path_name := fun p => p;
  py_exec := exec;
  run_setup := setup;
  Distribution_new := distribution;
  RangeSpecifier_new := fun s => Ret s;
  Readme_from_code := fun _ => mret None;
  EntryPoint_parse := fun text group => Ret (group, text_of text);
  Requirement_new := fun text => Ret (text_of text);
  _split_extra_and_marker := fun key => Ret (split_key key);
  DependencyMaker_from_requirement := fun _ req marker =>
    Ret [Dependency.mk _ (req, marker) {[ "main" ]}];
  RangeSpecifier_bool := fun s => negb (String.eqb s "");
  RangeSpecifier_peppify_str := fun s => s;
  EntryPoint_group := fst;
  EntryPoint_str := snd;
  Readme_to_rst_as_code := fun r => Ret r;
  py_repr := fun v => "'" +:+ text_of v +:+ "'";
  FormatCode := None;
  fix_code := None;
|}.

(** [Requirement('')] is an [InvalidRequirement]. *)
Definition invalid_requirement : pyexc :=
  mk_exc "InvalidRequirement" "Parse error at ''" true.

(** The same collaborators with a requirement parser that rejects the empty
    text. *)
Definition strict (setup : string -> M Distribution.t) : Collaborators := {|
  path_parent := fun _ => ".";
  path_name := fun p => p;
  py_exec := exec;
  run_setup := setup;
  Distribution_new := distribution;
  RangeSpecifier_new := fun s => Ret s;
  Readme_from_code := fun _ => mret None;
  EntryPoint_parse := fun text group => Ret (group, text_of text);
  Requirement_new := fun text =>
    if String.eqb (text_of text) "" then Raise invalid_requirement
    else Ret (text_of text);
  _split_extra_and_marker := fun key => Ret (split_key key);
  DependencyMaker_from_requirement := fun _ req marker =>
    Ret [Dependency.mk _ (req, marker) {[ "main" ]}];
  RangeSpecifier_bool := fun s => negb (String.eqb s "");
  RangeSpecifier_peppify_str := fun s => s;
  EntryPoint_group := fst;
  EntryPoint_str := snd;
  Readme_to_rst_as_code := fun r => Ret r;
  py_repr := fun v => "'" +:+ text_of v +:+ "'";
  FormatCode := None;
  fix_code := None;
|}.

(** [run_setup] failing with a toolchain error, and succeeding with an
    empty distribution. *)
Definition setup_error : pyexc :=
  mk_exc "DistutilsSetupError" "invalid setup script" true.

Definition setup_fails (script_name : string) : M Distribution.t :=
  fun w => (Raise setup_error, w).

Definition setup_returns (script_name : string) : M Distribution.t :=
  mret (Distribution.mk ∅ ∅).

(** [run_setup] returning the distribution of [script_entry_points]. *)
Definition setup_entry_points (script_name : string) : M Distribution.t :=
  mret (Distribution.mk {[ "name" := PyStr "x" ]}
          {[ "entry_points" := PyStr "[console_scripts]
x = x:main" ]}).

(** A process whose only file is [setup.py], holding [script]. *)
Definition not_found (p : string) : pyexc :=
  mk_exc "FileNotFoundError"
    ("[Errno 2] No such file or directory: '" +:+ p +:+ "'") true.

Definition world (script : string) : World :=
  mk_world (fun p => if String.eqb p "setup.py" then Ret script
                     else Raise (not_found p))
    "/home/user" [].

(** A process with no file at all. *)
Definition empty_world : World :=
  mk_world (fun p => Raise (not_found p)) "/home/user" [].

(** An installer that ends with [code], having written [err] to its
    standard error; [bytes.decode] as far as [PyStr.decode_utf8] goes. *)
Definition subprocess (code : Z) (err : list Byte.byte)
  : PackageManager.Subprocess := {|
  PackageManager.sys_executable := "/usr/bin/python3";
  PackageManager.run_pipeline := fun _ _ =>
    Ret (PackageManager.mk_completed code err);
  PackageManager.bytes_decode := fun bytes =>
    match PyStr.decode_utf8 bytes with
    | Some text => Ret text
    | None =>
        Raise (mk_exc "UnicodeDecodeError"
                 "'utf-8' codec can't decode bytes" true)
    end;
|}.

End Sample.

(** ** A sample distribution with authors, links and entry points *)

Module SampleProject.
Import Py SetupPy.

(** What [run_setup] returns for a project with an author, a maintainer
    without mail, a home page, two console scripts and two requirements
    (and a placeholder between them). *)
Definition distribution : Distribution.t :=
  Distribution.mk
    (<["name" := PyStr "x"]>
       (<["author" := PyStr "Ann"]>
          (<["author_email" := PyStr "ann@x.org"]>
             (<["maintainer" := PyStr "Bob"]>
                (<["url" := PyStr " https://x.org "]> ∅)))))
    (<["entry_points" :=
         PyDict [("console_scripts",
                  PyList [PyStr "x = x:main"; PyStr "y = x:other"])]]>
       (<["install_requires" :=
            PyList [PyStr "flask>=1.0"; PyStr "UNKNOWN"; PyStr "click"]]> ∅)).

Definition setup (script_name : string) : M Distribution.t :=
  mret distribution.

(** The collaborators of [Sample] with this [run_setup]. *)
Definition collaborators : Collaborators (MT := Sample.types) :=
  Sample.collaborators setup.

(** A process in which [setup.py] has no setup call, so that [load] takes
    the fallback. *)
Definition world : World := Sample.world Sample.script_no_call.

(** An installer whose standard error is no UTF-8 text. *)
Definition garbled : PackageManager.Subprocess :=
  Sample.subprocess 0 [Byte.xff].

(** What [run_setup] returns for a project with a description, a licence
    and keywords, a placeholder and a blank among them. *)
Definition described : Distribution.t :=
  Distribution.mk
    (<["name" := PyStr "x"]>
       (<["description" := PyStr " a tool "]>
          (<["license" := PyStr "MIT"]> ∅)))
    (<["keywords" :=
         PyList [PyStr "packaging"; PyStr "UNKNOWN"; PyStr " "; PyStr "pip"]]>
       ∅).

Definition setup_described (script_name : string) : M Distribution.t :=
  mret described.

Definition collaborators_described : Collaborators (MT := Sample.types) :=
  Sample.collaborators setup_described.

End SampleProject.

(** * Properties *)

(** ** Facts about the string operations *)

Module PyStrFacts.
Import PyStr.

#[local] Arguments String.append !s1 s2 : simpl nomatch.

Lemma append_empty_r (s : string) : s +:+ "" = s.
Proof. induction s as [|c s' IH]; simpl; [reflexivity | now rewrite IH]. Qed.

Lemma append_assoc (a b c : string) : (a +:+ b) +:+ c = a +:+ (b +:+ c).
Proof. induction a as [|x a' IH]; simpl; [reflexivity | now rewrite IH]. Qed.

Lemma append_length (a b : string) :
  String.length (a +:+ b) = String.length a + String.length b.
Proof. induction a as [|x a' IH]; simpl; [reflexivity | now rewrite IH]. Qed.

Lemma all_space_append (a b : string) :
  all_space (a +:+ b) = all_space a && all_space b.
Proof.
  induction a as [|x a' IH]; simpl; [reflexivity |].
  rewrite IH. now rewrite andb_assoc.
Qed.

(** *** [lstrip] *)

Lemma lstrip_split (s : string) :
  exists l, s = l +:+ lstrip s /\ all_space l = true.
Proof.
  induction s as [|c s' [l [Hs Hl]]]; simpl.
  - now exists "".
  - destruct (is_space c) eqn:Hc.
    + exists (String c l). simpl. rewrite Hc, Hl. split; [now f_equal | reflexivity].
    + now exists "".
Qed.

Lemma lstrip_head (s : string) (c : ascii) (t : string) :
  lstrip s = String c t -> is_space c = false.
Proof.
  induction s as [|a s' IH]; simpl; [discriminate |].
  destruct (is_space a) eqn:Ha; [exact IH |].
  intros [= <- _]. exact Ha.
Qed.

Lemma all_space_lstrip (s : string) : all_space (lstrip s) = all_space s.
Proof.
  induction s as [|c s' IH]; simpl; [reflexivity |].
  destruct (is_space c) eqn:Hc; simpl; [exact IH | now rewrite Hc].
Qed.

(** *** [rstrip] *)

Lemma rstrip_split (s : string) :
  exists t, s = rstrip s +:+ t /\ all_space t = true.
Proof.
  induction s as [|c s' [t [Hs Ht]]]; simpl.
  - now exists "".
  - destruct (rstrip s') as [|b r] eqn:Hr.
    + destruct (is_space c) eqn:Hc.
      * exists (String c t). simpl in *. subst s'. rewrite Hc, Ht. now split.
      * exists t. simpl in *. subst s'. now split.
    + exists t. simpl. split; [f_equal; exact Hs | exact Ht].
Qed.

Lemma rstrip_head (s : string) (c : ascii) (r : string) :
  rstrip s = String c r -> exists s', s = String c s'.
Proof.
  destruct s as [|a s']; simpl; [discriminate |].
  destruct (rstrip s'); [destruct (is_space a) |]; intros [= <- _]; eauto.
Qed.

Lemma rstrip_last (s t : string) (c : ascii) :
  rstrip s = t +:+ String c "" -> is_space c = false.
Proof.
  revert t. induction s as [|a s' IH]; intros t; simpl.
  - destruct t; discriminate.
  - destruct (rstrip s') as [|b r] eqn:Hr.
    + destruct (is_space a) eqn:Ha.
      * destruct t; discriminate.
      * destruct t as [|x [|y t]]; simpl; try discriminate.
        intros [= <-]. exact Ha.
    + destruct t as [|x t]; simpl; [discriminate |].
      intros [= _ H]. exact (IH t H).
Qed.

Lemma rstrip_empty_iff (s : string) : rstrip s = "" <-> all_space s = true.
Proof.
  induction s as [|c s' IH]; simpl; [tauto |].
  destruct (rstrip s') as [|b r].
  - destruct (is_space c); simpl; [tauto |].
    split; discriminate.
  - split; [discriminate |].
    intros [_ H]%andb_true_iff. apply IH in H. discriminate.
Qed.

(** *** [strip] *)

Lemma strip_empty_iff (s : string) : strip s = "" <-> all_space s = true.
Proof.
  unfold strip. rewrite rstrip_empty_iff. now rewrite all_space_lstrip.
Qed.

Lemma strip_split (s : string) :
  exists l t, s = l +:+ strip s +:+ t /\ all_space l = true /\ all_space t = true.
Proof.
  destruct (lstrip_split s) as [l [Hs Hl]].
  destruct (rstrip_split (lstrip s)) as [t [Hr Ht]].
  exists l, t. unfold strip. now rewrite <- Hr, <- Hs.
Qed.

Lemma strip_head (s : string) (c : ascii) (r : string) :
  strip s = String c r -> is_space c = false.
Proof.
  unfold strip. intros [s' H]%rstrip_head. exact (lstrip_head _ _ _ H).
Qed.

Lemma strip_last (s t : string) (c : ascii) :
  strip s = t +:+ String c "" -> is_space c = false.
Proof. unfold strip. apply rstrip_last. Qed.

(** *** [replace] *)

Section Replace.
Variables old new : string.
Hypothesis old_nonempty : 0 < String.length old.
Hypothesis new_longer : String.length old < String.length new.

(** The scan never shortens its input by more than the characters it still
    has to skip. *)
Lemma replace_from_length (k : nat) (s : string) :
  String.length s <= String.length (replace_from old new k s) + k.
Proof.
  revert k. induction s as [|c s' IH]; intros k; simpl; [lia |].
  destruct k as [|k].
  - destruct (startswith old (String c s')).
    + rewrite append_length. specialize (IH (String.length old - 1)). lia.
    + simpl. specialize (IH 0). lia.
  - specialize (IH k). lia.
Qed.

Lemma replace_absent (s : string) :
  contains old s = false -> replace_from old new 0 s = s.
Proof.
  induction s as [|c s' IH]; simpl; [reflexivity |].
  intros [H1 H2]%orb_false_iff. rewrite H1. now rewrite IH.
Qed.

Lemma replace_present (s : string) :
  contains old s = true ->
  String.length s < String.length (replace_from old new 0 s).
Proof.
  induction s as [|c s' IH]; simpl; [discriminate |].
  destruct (startswith old (String c s')) eqn:H1; simpl.
  - intros _. rewrite append_length.
    pose proof (replace_from_length (String.length old - 1) s'). lia.
  - intros H2. specialize (IH H2). lia.
Qed.

(** The rewrite changes the text exactly when the text contains [old]. *)
Lemma replace_noop_iff (s : string) :
  replace old new s = s <-> contains old s = false.
Proof.
  unfold replace. split.
  - intros H. destruct (contains old s) eqn:Hc; [| reflexivity].
    apply replace_present in Hc. rewrite H in Hc. lia.
  - apply replace_absent.
Qed.

End Replace.

(** The rewrite of [_execute]: [source.replace('setup(', '_dist = dict(')]. *)
Lemma rewrite_noop_iff (source : string) :
  replace "setup(" "_dist = dict(" source = source
  <-> contains "setup(" source = false.
Proof. apply replace_noop_iff; simpl; lia. Qed.

End PyStrFacts.

(** ** Requirement rendering and the patched [open] *)

Module RenderingFacts.
Import Py SetupPy PyStrFacts.

#[local] Arguments String.append !s1 s2 : simpl nomatch.

(** C4. [_format_req] renders the name, then the comma-joined extras in
    brackets if there are extras, then the version constraint with no
    separator if there is one, then "; " and the marker if there is one, in
    this order; the requirement requests / socks / >=2.0 /
    python_version>='3.6' is rendered as
    [requests[socks]>=2.0; python_version>='3.6']. *)
Theorem format_req_pieces (req : Requirement.t) :
  _format_req req =
    Requirement.name req
    +:+ (match Requirement.extras req with
         | [] => ""
         | extras => "[" +:+ PyStr.join "," extras +:+ "]"
         end)
    +:+ (if opt_truthy (Requirement.version req)
         then default "" (Requirement.version req) else "")
    +:+ (if opt_truthy (Requirement.markers req)
         then "; " +:+ default "" (Requirement.markers req) else "")
  /\ _format_req
       (Requirement.mk "requests" ["socks"] (Some ">=2.0")
          (Some "python_version>='3.6'") [])
     = "requests[socks]>=2.0; python_version>='3.6'".
Proof.
  split; [| reflexivity].
  destruct req as [name extras version markers main_envs].
  unfold _format_req; simpl.
  destruct extras as [|e extras];
    destruct version as [v|]; simpl; try destruct (str_truthy v);
    destruct markers as [m|]; simpl; try destruct (str_truthy m);
    rewrite ?append_assoc, ?append_empty_r; simpl;
    rewrite ?append_assoc, ?append_empty_r; reflexivity.
Qed.

(** Decoding undoes the encoding of one code point. *)
Lemma decode_encode_char (c : ascii) (l : list Byte.byte) :
  PyStr.decode_utf8 (PyStr.encode_char c ++ l) =
    match PyStr.decode_utf8 l with
    | Some s => Some (String c s)
    | None => None
    end.
Proof.
  destruct c as [[] [] [] [] [] [] [] []]; reflexivity.
Qed.

(** The bytes of [s.encode('utf8')] decode to [s]. *)
Lemma decode_encode_utf8 (s : string) :
  PyStr.decode_utf8 (PyStr.encode_utf8 s) = Some s.
Proof.
  induction s as [|c s' IH]; [reflexivity |].
  change (PyStr.encode_utf8 (String c s'))
    with (PyStr.encode_char c ++ PyStr.encode_utf8 s').
  now rewrite decode_encode_char, IH.
Qed.

(** C10. The globals of the safe execution bind [open] to [_patched_open],
    and a call [open(fname, mode)] (or [open(fname)], mode ['r']) returns a
    buffer made from [fname] alone: the text [fname] itself, or, when [mode]
    contains ['b'], the UTF-8 bytes of [fname]. No file of the process is
    read: the result is a function of [fname] and [mode] only. *)
Theorem patched_open_holds_name (path fname mode : string) :
  initial_globals path !! "open" = Some (GOpen _patched_open)
  /\ _patched_open fname default_mode = StringIO fname
  /\ match _patched_open fname mode with
     | StringIO text => PyStr.has_char "b" mode = false /\ text = fname
     | BytesIO bytes =>
         PyStr.has_char "b" mode = true
         /\ bytes = PyStr.encode_utf8 fname
         /\ PyStr.decode_utf8 bytes = Some fname
     end.
Proof.
  split; [reflexivity |]. split; [reflexivity |].
  unfold _patched_open. destruct (PyStr.has_char "b" mode).
  - repeat split. apply decode_encode_utf8.
  - now split.
Qed.

End RenderingFacts.

(** ** Facts about the monads *)

Module MonadFacts.
Import Py.

Lemma bind_ret_inv {A B : Type} (c : outcome A) (k : A -> outcome B) (b : B) :
  c ≫= k = Ret b -> exists a, c = Ret a /\ k a = Ret b.
Proof. destruct c as [a|e]; simpl; [eauto | discriminate]. Qed.

Lemma bind_raise_inv {A B : Type} (c : outcome A) (k : A -> outcome B)
  (e : pyexc) :
  c ≫= k = Raise e -> c = Raise e \/ exists a, c = Ret a /\ k a = Raise e.
Proof. destruct c as [a|e']; simpl; [eauto | intros [= ->]; auto]. Qed.

Lemma M_bind_ret_inv {A B : Type} (c : M A) (k : A -> M B) (w w' : World)
  (b : B) :
  (c ≫= k) w = (Ret b, w') ->
  exists a w1, c w = (Ret a, w1) /\ k a w1 = (Ret b, w').
Proof.
  unfold mbind, M_bind. destruct (c w) as [[a|e] w1]; [eauto | discriminate].
Qed.

Lemma M_bind_raise_inv {A B : Type} (c : M A) (k : A -> M B) (w w' : World)
  (e : pyexc) :
  (c ≫= k) w = (Raise e, w') ->
  c w = (Raise e, w') \/ exists a w1, c w = (Ret a, w1) /\ k a w1 = (Raise e, w').
Proof.
  unfold mbind, M_bind. destruct (c w) as [[a|e'] w1]; [eauto |].
  intros [= -> ->]. auto.
Qed.

Lemma lift_inv {A : Type} (c : outcome A) (w w' : World) (r : outcome A) :
  lift c w = (r, w') -> c = r /\ w' = w.
Proof. unfold lift. now intros [= -> ->]. Qed.

(** An invariant of the loop body is an invariant of the loop. *)
Lemma foldM_invariant {A S : Type} (P : S -> Prop) (body : A -> S -> outcome S)
  (l : list A) :
  (forall x s s', In x l -> P s -> body x s = Ret s' -> P s') ->
  forall s s', P s -> foldM body l s = Ret s' -> P s'.
Proof.
  induction l as [|x l' IH]; intros Hbody s s' Hs; simpl.
  - now intros [= <-].
  - intros (s1 & H1 & H2)%bind_ret_inv.
    apply (IH (fun y t t' Hy => Hbody y t t' (or_intror Hy)) s1 s');
      [| exact H2].
    exact (Hbody x s s1 (or_introl eq_refl) Hs H1).
Qed.

(** A loop whose body returns on every element returns. *)
Lemma foldM_total {A S : Type} (body : A -> S -> outcome S) (l : list A) :
  (forall x s, In x l -> exists s', body x s = Ret s') ->
  forall s, exists s', foldM body l s = Ret s'.
Proof.
  induction l as [|x l' IH]; intros Hbody s; simpl; [eauto |].
  destruct (Hbody x s (or_introl eq_refl)) as [s1 ->]. simpl.
  apply IH. intros y t Hy. apply Hbody. now right.
Qed.

End MonadFacts.

(** ** The field getters *)

Module GetterFacts.
Import Py SetupPy PyStrFacts.

(** [_get] returns the empty string, or a stripped non-empty string. *)
Lemma get_ret_cases (msg : Distribution.t) (name r : string) :
  _get msg name = Ret r ->
  r = "" \/ exists s, r = PyStr.strip s.
Proof.
  unfold _get.
  set (value := if truthy _ then _ else _).
  destruct (truthy value); simpl; [| intros [= <-]; now left].
  destruct (eq_str value "UNKNOWN"); [intros [= <-]; now left |].
  destruct value; simpl; try discriminate.
  intros [= <-]. right. eauto.
Qed.

(** [_get] in terms of the value it examines. *)
Lemma get_examined (msg : Distribution.t) (name : string) :
  _get msg name =
    let value := examined msg name in
    if negb (truthy value) then Ret ""
    else if eq_str value "UNKNOWN" then Ret ""
    else py_strip value.
Proof. reflexivity. Qed.

(** A missing, empty, UNKNOWN or blank value reads as the empty string. *)
Lemma get_absent (msg : Distribution.t) (name : string) :
  truthy (examined msg name) = false
  \/ examined msg name = PyStr "UNKNOWN"
  \/ (exists s, examined msg name = PyStr s /\ PyStr.all_space s = true) ->
  _get msg name = Ret "".
Proof.
  rewrite get_examined. cbv zeta.
  intros [H | [H | (s & H & Hs)]]; rewrite H; [reflexivity | reflexivity |].
  destruct s as [|c s']; [reflexivity |].
  cbn [truthy negb eq_str py_strip].
  apply strip_empty_iff in Hs. rewrite Hs.
  now destruct (String.eqb _ _).
Qed.

(** C7. For every field name, [_get] examines the attribute of [.metadata]
    and turns to the attribute of the object itself only when the former is
    missing or empty. If the examined value is the string UNKNOWN or
    consists of whitespace only, the result is the empty string; any other
    string is returned without its surrounding whitespace. A non-empty
    attribute of [.metadata] decides the result whatever the object itself
    holds under the same name. *)
Theorem get_absent_stripped_metadata_first
  (msg : Distribution.t) (name : string) :
  let m := getattr (Distribution.metadata msg) name PyNone in
  let a := getattr (Distribution.attrs msg) name PyNone in
  let value := if truthy m then m else a in
  (value = PyStr "UNKNOWN" -> _get msg name = Ret "")
  /\ (forall s, value = PyStr s -> PyStr.all_space s = true ->
      _get msg name = Ret "")
  /\ (forall s, value = PyStr s -> s <> "UNKNOWN" ->
      PyStr.all_space s = false ->
      exists l r t,
        _get msg name = Ret r /\ s = l +:+ r +:+ t
        /\ PyStr.all_space l = true /\ PyStr.all_space t = true
        /\ r <> ""
        /\ (forall c r', r = String c r' -> PyStr.is_space c = false)
        /\ (forall r' c, r = r' +:+ String c "" -> PyStr.is_space c = false))
  /\ (truthy m = true ->
      forall attrs',
        _get (Distribution.mk (Distribution.metadata msg) attrs') name
        = _get msg name).
Proof.
  intros m a value. repeat split.
  - intros Hv. unfold _get. fold m a value. now rewrite Hv.
  - intros s Hv Hs. unfold _get. fold m a value. rewrite Hv.
    destruct s as [|c s']; [reflexivity |].
    cbn [truthy negb eq_str py_strip].
    apply strip_empty_iff in Hs. rewrite Hs.
    now destruct (String.eqb _ _).
  - intros s Hv Hne Hs.
    destruct (strip_split s) as (l & t & Hsplit & Hl & Ht).
    exists l, (PyStr.strip s), t.
    assert (Hr : PyStr.strip s <> "").
    { intros H%strip_empty_iff. congruence. }
    repeat split; try assumption.
    + unfold _get. fold m a value. rewrite Hv.
      destruct s as [|c s']; [discriminate |].
      cbn [truthy negb eq_str py_strip].
      now destruct (String.eqb_spec (String c s') "UNKNOWN").
    + intros c r' H. exact (strip_head _ _ _ H).
    + intros r' c H. exact (strip_last _ _ _ H).
  - intros Hm attrs'. unfold _get. simpl. fold m. now rewrite Hm.
Qed.

(** One round of [_get_list] on a string. *)
Lemma get_list_step_string (s : string) (acc : list string) :
  _get_list_step (PyStr s) acc
  = Ret (if decide (s <> "UNKNOWN" /\ PyStr.strip s <> "")
         then acc ++ [s] else acc).
Proof.
  unfold _get_list_step. cbn [eq_str].
  destruct (String.eqb_spec s "UNKNOWN") as [Hu|Hu].
  - now rewrite decide_False by tauto.
  - destruct (String.eqb_spec (PyStr.strip s) "") as [Hb|Hb].
    + now rewrite decide_False by tauto.
    + now rewrite decide_True by tauto.
Qed.

(** The loop of [_get_list] over strings keeps those that are neither
    UNKNOWN nor blank. *)
Lemma get_list_loop_strings (l acc : list string) :
  foldM _get_list_step (PyStr <$> l) acc
  = Ret (acc ++ filter (fun s => s <> "UNKNOWN" /\ PyStr.strip s <> "") l).
Proof.
  revert acc. induction l as [|s l' IH]; intros acc.
  - simpl. now rewrite app_nil_r.
  - rewrite filter_cons. cbn [fmap list_fmap foldM].
    rewrite get_list_step_string. cbn [mbind outcome_bind].
    rewrite IH. case_decide; [| reflexivity].
    now rewrite <- app_assoc.
Qed.

(** [_get_list] on a list or tuple of strings drops the entries that are
    UNKNOWN or blank and keeps the others as they are, in their order. *)
Theorem get_list_drops_unknown_and_blank (msg : Distribution.t)
  (name : string) (l : list string) :
  getattr (Distribution.attrs msg) name PyNone = PyList (PyStr <$> l)
  \/ getattr (Distribution.attrs msg) name PyNone = PyTuple (PyStr <$> l) ->
  _get_list msg name
  = Ret (filter (fun s => s <> "UNKNOWN" /\ PyStr.strip s <> "") l).
Proof.
  unfold _get_list. intros [-> | ->];
    (destruct l as [|s l']; [reflexivity |]);
    cbn [truthy negb fmap list_fmap py_iter mbind outcome_bind];
    apply (get_list_loop_strings (s :: l') []).
Qed.

Lemma get_list_drops_unknown_and_blank_witness :
  _get_list
    (Distribution.mk ∅
       {[ "keywords" := PyList (PyStr <$> ["foo"; "UNKNOWN"; ""; "bar"]) ]})
    "keywords"
  = Ret ["foo"; "bar"].
Proof.
  apply (get_list_drops_unknown_and_blank _ "keywords"
           ["foo"; "UNKNOWN"; ""; "bar"]).
  left. reflexivity.
Defined.

(** The three properties on concrete distribution objects. *)
Example get_examples :
  let msg (m a : pyval) :=
    Distribution.mk {[ "license" := m ]} {[ "license" := a ]} in
  _get (msg (PyStr "  MIT ") (PyStr "BSD")) "license" = Ret "MIT"
  /\ _get (msg (PyStr "UNKNOWN") (PyStr "BSD")) "license" = Ret ""
  /\ _get (msg (PyStr "   ") (PyStr "BSD")) "license" = Ret ""
  /\ _get (msg PyNone (PyStr "BSD")) "license" = Ret "BSD"
  /\ _get (msg PyNone (PyStr "UNKNOWN")) "license" = Ret ""
  /\ _get (msg PyNone PyNone) "version" = Ret "".
Proof. vm_compute. repeat split. Qed.

End GetterFacts.

(** ** The requirement keys of [dumps] *)

Module DumpsFacts.
Import Py SetupPy.

(** *** The [defaultdict(list)] model *)

Lemma dd_get_append {A : Type} (k k' : string) (v : A)
  (d : list (string * list A)) :
  dd_get k (dd_append k' v d) =
    if String.eqb k k' then dd_get k d ++ [v] else dd_get k d.
Proof.
  induction d as [|[k0 vs] d' IH]; cbn [dd_get dd_append].
  - now destruct (String.eqb k k').
  - destruct (String.eqb_spec k' k0) as [Heq|Hne]; cbn [dd_get].
    + subst k0. now destruct (String.eqb k k').
    + rewrite IH. destruct (String.eqb_spec k k0) as [Heq|Hne'];
        [| reflexivity].
      subst k0. destruct (String.eqb_spec k k'); [congruence | reflexivity].
Qed.

Lemma dd_append_not_nil {A : Type} (k : string) (v : A)
  (d : list (string * list A)) : dd_append k v d <> [].
Proof.
  destruct d as [|[k0 vs] d']; simpl; [| destruct (String.eqb k k0)];
    discriminate.
Qed.

Lemma dict_lookup_app {A : Type} (k : string) (a b : list (string * A)) :
  dict_lookup k (a ++ b) =
    match dict_lookup k a with
    | Some v => Some v
    | None => dict_lookup k b
    end.
Proof.
  induction a as [|[k0 v0] a' IH]; simpl; [reflexivity |].
  now destruct (String.eqb k k0).
Qed.

Lemma dict_lookup_app_none {A : Type} (k : string) (a b : list (string * A)) :
  dict_lookup k a = None -> dict_lookup k (a ++ b) = dict_lookup k b.
Proof. intros H. now rewrite dict_lookup_app, H. Qed.

(** *** The loop that fills [extras] *)

(** What one requirement adds under the name [env]: its rendering, once for
    each time [env] comes up when iterating over [req.main_envs]. *)
Local Abbreviation extras_share env req :=
  ((fun _ => _format_req req)
   <$> filter (fun e => e = env) (Requirement.main_envs req)).

Lemma inner_loop_get (env formatted : string) (envs : list string)
  (d : list (string * list string)) :
  dd_get env (fold_left (fun extras e => dd_append e formatted extras) envs d)
  = dd_get env d ++ ((fun _ => formatted) <$> filter (fun e => e = env) envs).
Proof.
  revert d. induction envs as [|e envs' IH]; intros d; simpl.
  - now rewrite app_nil_r.
  - rewrite IH, dd_get_append. rewrite filter_cons.
    destruct (String.eqb_spec env e) as [Heq|Hne].
    + subst e. rewrite decide_True by reflexivity. simpl.
      now rewrite <- app_assoc.
    + rewrite decide_False by congruence. reflexivity.
Qed.

Lemma inner_loop_not_nil (formatted : string) (envs : list string)
  (d : list (string * list string)) :
  d <> [] ->
  fold_left (fun extras e => dd_append e formatted extras) envs d <> [].
Proof.
  revert d. induction envs as [|e envs' IH]; intros d Hd; simpl; [exact Hd |].
  apply IH, dd_append_not_nil.
Qed.

Lemma extras_step_get (env : string) (req : Requirement.t)
  (d : list (string * list string)) :
  dd_get env (dumps_extras_step d req) = dd_get env d ++ extras_share env req.
Proof.
  unfold dumps_extras_step, has_main_envs.
  destruct (Requirement.main_envs req) as [|e envs] eqn:He.
  - now rewrite app_nil_r.
  - apply inner_loop_get.
Qed.

Lemma extras_loop_get (env : string) (reqs : list Requirement.t)
  (d : list (string * list string)) :
  dd_get env (fold_left dumps_extras_step reqs d)
  = dd_get env d ++ flat_map (fun req => extras_share env req) reqs.
Proof.
  revert d. induction reqs as [|req reqs' IH]; intros d; simpl.
  - now rewrite app_nil_r.
  - rewrite IH, extras_step_get. now rewrite <- app_assoc.
Qed.

Lemma extras_step_not_nil (req : Requirement.t)
  (d : list (string * list string)) :
  d <> [] \/ Requirement.main_envs req <> [] -> dumps_extras_step d req <> [].
Proof.
  unfold dumps_extras_step, has_main_envs.
  destruct (Requirement.main_envs req) as [|e envs].
  - intros [H|H]; [exact H | congruence].
  - intros _. simpl. apply inner_loop_not_nil, dd_append_not_nil.
Qed.

Lemma extras_loop_nil_iff (reqs : list Requirement.t)
  (d : list (string * list string)) :
  fold_left dumps_extras_step reqs d = []
  <-> d = [] /\ Forall (fun req => Requirement.main_envs req = []) reqs.
Proof.
  revert d. induction reqs as [|req reqs' IH]; intros d; simpl.
  - split; [intros ->; auto | tauto].
  - rewrite IH. split.
    + intros [Hstep Hall].
      destruct d as [|kv d'].
      * destruct (Requirement.main_envs req) as [|e envs] eqn:He; [auto |].
        exfalso. apply (extras_step_not_nil req []); [right; congruence | exact Hstep].
      * exfalso. apply (extras_step_not_nil req (kv :: d')); [now left | exact Hstep].
    + intros [-> Hall]. inversion Hall as [|? ? Hreq Hall']; subst.
      split; [| exact Hall'].
      unfold dumps_extras_step, has_main_envs. now rewrite Hreq.
Qed.

(** *** The keyword list *)

Section Content.
Context {MT : ModelTypes} {C : Collaborators}.

(** None of the pairs appended before the requirements uses one of the two
    requirement keywords. *)
Lemma metadata_has_no_requirement_key (project : RootDependency.t)
  (package : Package.t) (k : string) :
  k = "install_requires" \/ k = "extras_require" ->
  dict_lookup k (dumps_metadata project package) = None.
Proof.
  intros Hk. unfold dumps_metadata.
  repeat (rewrite dict_lookup_app_none;
          [| destruct Hk as [->| ->]; simpl; repeat case_match; reflexivity]).
  destruct Hk as [->| ->]; reflexivity.
Qed.

(** C6. In the keyword list of [dumps], [install_requires] holds the
    renderings of exactly the requirements with no named environment, in
    input order. A requirement with named environments is rendered and the
    rendering appended under each of its environment names, so the list
    under a name holds, in input order, the renderings of the requirements
    that have this name. The key [extras_require] is present exactly when
    some requirement has a named environment, and then holds that mapping.
    Each requirement goes to one of the two keys and not to the other. *)
Theorem dumps_requirement_keys (reqs : list Requirement.t)
  (project : RootDependency.t) (package : Package.t) :
  let content := dumps_content reqs project package in
  let unconditional :=
    filter (fun req => Requirement.main_envs req = []) reqs in
  dict_lookup "install_requires" content
    = Some (str_list (_format_req <$> unconditional))
  /\ (forall env,
        dd_get env (dumps_extras reqs)
        = flat_map (fun req =>
                      (fun _ => _format_req req)
                      <$> filter (fun e => e = env) (Requirement.main_envs req))
            reqs)
  /\ dict_lookup "extras_require" content
      = match dumps_extras reqs with
        | [] => None
        | extras => Some (str_list_dict extras)
        end
  /\ (is_Some (dict_lookup "extras_require" content)
      <-> exists req, req ∈ reqs /\ Requirement.main_envs req <> [])
  /\ (forall req, req ∈ reqs ->
        (Requirement.main_envs req = [] ->
           req ∈ unconditional
           /\ forall env, ~ env ∈ Requirement.main_envs req)
        /\ (Requirement.main_envs req <> [] ->
             ~ req ∈ unconditional
             /\ forall env, env ∈ Requirement.main_envs req ->
                  _format_req req ∈ dd_get env (dumps_extras reqs))).
Proof.
  intros content unconditional.
  assert (Hfilter : dumps_install_requires reqs = _format_req <$> unconditional).
  { unfold dumps_install_requires, unconditional. f_equal.
    apply list_filter_iff. intros req. unfold has_main_envs.
    destruct (Requirement.main_envs req); split; congruence. }
  assert (Hget : forall env,
             dd_get env (dumps_extras reqs)
             = flat_map (fun req => extras_share env req) reqs).
  { intros env. unfold dumps_extras. now rewrite extras_loop_get. }
  assert (Hextras : dict_lookup "extras_require" content
                    = match dumps_extras reqs with
                      | [] => None
                      | extras => Some (str_list_dict extras)
                      end).
  { unfold content, dumps_content.
    rewrite dict_lookup_app_none
      by (apply metadata_has_no_requirement_key; now right).
    now destruct (dumps_extras reqs). }
  split; [| split; [exact Hget | split; [exact Hextras | split]]].
  - unfold content, dumps_content.
    rewrite dict_lookup_app_none
      by (apply metadata_has_no_requirement_key; now left).
    simpl. now rewrite Hfilter.
  - rewrite Hextras.
    assert (Hnil := extras_loop_nil_iff reqs []). fold (dumps_extras reqs) in Hnil.
    split.
    + intros Hsome.
      destruct (decide (Forall (fun req => Requirement.main_envs req = []) reqs))
        as [Hall|Hnot].
      * destruct Hnil as [_ Hnil]. rewrite Hnil in Hsome by auto.
        now destruct Hsome.
      * apply not_Forall_Exists in Hnot; [| intros req; apply _].
        apply Exists_exists in Hnot as (req & Hin & Hreq).
        exists req. split; [exact Hin | exact Hreq].
    + intros (req & Hin & Hreq).
      destruct (dumps_extras reqs) as [|kv extras] eqn:He; [| eauto].
      destruct Hnil as [Hnil _]. destruct (Hnil eq_refl) as [_ Hall].
      rewrite Forall_forall in Hall. exfalso. exact (Hreq (Hall req Hin)).
  - intros req Hin. split.
    + intros Hreq. split.
      * unfold unconditional. apply list_elem_of_filter. now split.
      * intros env. rewrite Hreq. apply not_elem_of_nil.
    + intros Hreq. split.
      * unfold unconditional. rewrite list_elem_of_filter. tauto.
      * intros env Henv. rewrite Hget.
        apply list_elem_of_In, in_flat_map. exists req.
        split; [now apply list_elem_of_In |].
        apply list_elem_of_In, list_elem_of_fmap. exists env.
        split; [reflexivity |]. apply list_elem_of_filter. now split.
Qed.

End Content.

(** The keyword list of a project with one unconditional requirement and
    one requirement in two named environments. *)
Example dumps_content_example :
  let flask := Requirement.mk "flask" [] (Some ">=1.0") None [] in
  let pytest := Requirement.mk "pytest" ["cov"] None None ["test"; "docs"] in
  let project :=
    RootDependency.new (MT := Sample.types) "x" "0.0.0" "" "" [] [] [] "" None in
  dumps_content (C := Sample.collaborators Sample.setup_fails)
    [flask; pytest] project (Package.mk ["x"] [])
  = [("name", PyStr "x"); ("version", PyStr "0.0.0");
     ("packages", PyList [PyStr "x"]); ("package_data", PyDict []);
     ("install_requires", PyList [PyStr "flask>=1.0"]);
     ("extras_require",
      PyDict [("test", PyList [PyStr "pytest[cov]"]);
              ("docs", PyList [PyStr "pytest[cov]"])])].
Proof. reflexivity. Qed.

End DumpsFacts.

(** ** [load] *)

Module LoadFacts.
Import Py SetupPy MonadFacts PyStrFacts GetterFacts.

Section Load.
Context {MT : ModelTypes} {C : Collaborators}.

(** the root keeps its name and version *)
Local Abbreviation same_identity r r' :=
  (RootDependency.raw_name r' = RootDependency.raw_name r
   /\ RootDependency.version r' = RootDependency.version r).

(** the root keeps its name, version and dependencies *)
Local Abbreviation same_core r r' :=
  (same_identity r r'
   /\ RootDependency.dependencies r' = RootDependency.dependencies r).

(** *** The stages of the assembly *)

Lemma load_root_inv (path : string) (info : Distribution.t) (w w' : World)
  (root : RootDependency.t) :
  load_root path info w = (Ret root, w') ->
  exists n v,
    _get info "name" = Ret n /\ _get info "version" = Ret v
    /\ RootDependency.raw_name root = n
    /\ RootDependency.version root = str_or v "0.0.0"
    /\ RootDependency.dependencies root = [].
Proof.
  unfold load_root. intros H.
  repeat match goal with
         | H : (_ ≫= _) _ = (Ret _, _) |- _ =>
             apply M_bind_ret_inv in H; destruct H as (? & ? & ? & ?)
         | H : lift _ _ = (_, _) |- _ =>
             apply lift_inv in H; destruct H as [? ?]; subst
         end.
  match goal with
  | H : mret _ _ = (Ret _, _) |- _ => injection H as <- _
  end.
  eauto 10.
Qed.

Lemma load_links_core (info : Distribution.t) (r r' : RootDependency.t) :
  load_links info r = Ret r' -> same_core r r'.
Proof.
  unfold load_links.
  apply (foldM_invariant (fun r' => same_core r r')); [| auto].
  intros [key name] s s' _ Hs (link & _ & H)%bind_ret_inv.
  injection H as <-. now destruct (String.eqb link "").
Qed.

Lemma load_authors_core (info : Distribution.t) (r r' : RootDependency.t) :
  load_authors info r = Ret r' -> same_core r r'.
Proof.
  unfold load_authors.
  apply (foldM_invariant (fun r' => same_core r r')); [| auto].
  intros name s s' _ Hs (author & _ & H)%bind_ret_inv.
  destruct (String.eqb author "").
  - now injection H as <-.
  - apply bind_ret_inv in H as (mail & _ & H'). now injection H' as <-.
Qed.

Lemma load_entrypoints_core (info : Distribution.t)
  (r r' : RootDependency.t) :
  load_entrypoints info r = Ret r' -> same_core r r'.
Proof.
  unfold load_entrypoints.
  intros (items & _ & (eps & _ & H)%bind_ret_inv)%bind_ret_inv.
  now injection H as <-.
Qed.

Lemma load_install_requires_inv (info : Distribution.t)
  (r r' : RootDependency.t) :
  load_install_requires info r = Ret r' ->
  same_identity r r'
  /\ exists deps,
      RootDependency.dependencies r' = RootDependency.dependencies r ++ deps.
Proof.
  unfold load_install_requires.
  intros (texts & _ & (deps & _ & H)%bind_ret_inv)%bind_ret_inv.
  injection H as <-. simpl. eauto.
Qed.

Lemma load_extra_reqs_inv (marker : option Marker) (envs : gset string)
  (texts : list pyval) (r r' : RootDependency.t) :
  load_extra_reqs marker envs texts r = Ret r' ->
  same_identity r r'
  /\ exists made,
      made_from marker texts made
      /\ RootDependency.dependencies r'
         = RootDependency.dependencies r ++ (Dependency.set_envs envs <$> made).
Proof.
  unfold load_extra_reqs. revert r.
  induction texts as [|text texts' IH]; intros r; simpl.
  - intros [= <-]. split; [auto |]. exists []. split; [constructor |].
    now rewrite app_nil_r.
  - intros (r1 & H1 & H2)%bind_ret_inv.
    apply bind_ret_inv in H1 as (req & Hreq & H3).
    apply bind_ret_inv in H3 as (deps & Hdeps & H4).
    injection H4 as <-.
    destruct (IH _ H2) as ((Hn & Hv) & made & Hmade & Hd).
    split; [split; [exact Hn | exact Hv] |].
    exists (deps ++ made). split; [econstructor; eassumption |].
    rewrite Hd. simpl. now rewrite fmap_app, app_assoc.
Qed.

(** the dependencies of one group, with their [envs] assigned *)
Local Abbreviation tagged group :=
  (Dependency.set_envs (extra_envs (fst group)) <$> snd group).

Lemma load_extras_inv (info : Distribution.t) (r r' : RootDependency.t) :
  load_extras info r = Ret r' ->
  same_identity r r'
  /\ exists items groups,
      py_items (getattr (Distribution.attrs info) "extras_require" (PyDict []))
      = Ret items
      /\ Forall2 extra_group items groups
      /\ RootDependency.dependencies r'
         = RootDependency.dependencies r ++ flat_map (fun g => tagged g) groups.
Proof.
  unfold load_extras. intros (items & Hitems & H)%bind_ret_inv.
  cut (same_identity r r'
       /\ exists groups,
           Forall2 extra_group items groups
           /\ RootDependency.dependencies r'
              = RootDependency.dependencies r
                ++ flat_map (fun g => tagged g) groups).
  { intros (Hid & groups & Hg & Hd). eauto 10. }
  clear Hitems. revert r H.
  induction items as [|[key reqs] items' IH]; intros r; simpl.
  - intros [= <-]. split; [auto |]. exists []. split; [constructor |].
    now rewrite app_nil_r.
  - intros (r1 & H1 & H2)%bind_ret_inv.
    apply bind_ret_inv in H1 as ([extra marker] & Hsplit & H3).
    apply bind_ret_inv in H3 as (texts & Htexts & H4).
    apply load_extra_reqs_inv in H4 as ((Hn1 & Hv1) & made & Hmade & Hd1).
    destruct (IH _ H2) as ((Hn & Hv) & groups & Hgroups & Hd).
    split; [split; congruence |].
    exists ((extra, made) :: groups). split.
    + constructor; [| exact Hgroups]. exists marker, texts. auto.
    + rewrite Hd, Hd1. simpl. now rewrite app_assoc.
Qed.

Lemma load_fill_inv (info : Distribution.t) (r r' : RootDependency.t) :
  load_fill info r = Ret r' ->
  same_identity r r'
  /\ exists deps items groups,
      py_items (getattr (Distribution.attrs info) "extras_require" (PyDict []))
      = Ret items
      /\ Forall2 extra_group items groups
      /\ RootDependency.dependencies r'
         = (RootDependency.dependencies r ++ deps)
           ++ flat_map (fun g => tagged g) groups.
Proof.
  unfold load_fill.
  intros (r1 & ((Hn1 & Hv1) & Hd1)%load_links_core & G1)%bind_ret_inv.
  apply bind_ret_inv in G1 as (r2 & ((Hn2 & Hv2) & Hd2)%load_authors_core & G2).
  apply bind_ret_inv in G2
    as (r3 & ((Hn3 & Hv3) & Hd3)%load_entrypoints_core & G3).
  apply bind_ret_inv in G3
    as (r4 & ((Hn4 & Hv4) & deps & Hd4)%load_install_requires_inv & G4).
  apply load_extras_inv in G4
    as ((Hn5 & Hv5) & items & groups & Hi & Hg & Hd5).
  split; [split; congruence |].
  exists deps, items, groups. repeat split; try assumption.
  rewrite Hd5, Hd4. congruence.
Qed.

Lemma load_inv (path : string) (w w' : World) (root : RootDependency.t) :
  load path w = (Ret root, w') ->
  exists info w1 root0,
    load_info path w = (Ret info, w1)
    /\ load_root path info w1 = (Ret root0, w')
    /\ load_fill info root0 = Ret root.
Proof.
  unfold load. intros (info & w1 & Hinfo & G1)%M_bind_ret_inv.
  apply M_bind_ret_inv in G1 as (root0 & w2 & Hroot & [Hfill ->]%lift_inv).
  eauto 10.
Qed.

(** *** Safe extraction *)

(** [_execute] on a script that can be read, in terms of the execution it
    starts. *)
Lemma execute_readable (path source : string) (w : World) :
  files w path = Ret source ->
  _execute path w =
    if String.eqb (rewritten source) source then
      (Ret None, add_log (mk_log logger ERROR "cannot modify source") w)
    else
      let r := safe_exec path source w in
      let w1 := set_cwd (cwd w) (exec_world r) in
      match exec_raised r with
      | Some e =>
          if exc_is_Exception e then
            (globe ← mret (exec_globals r);
             match globe !! "_dist" with
             | None | Some (GVal PyNone) =>
                 logger_error logger "distribution was not called";; mret None
             | Some dist => d ← lift (Distribution_new dist); mret (Some d)
             end)
              (add_log (mk_log logger ERROR (exc_type e +:+ ": " +:+ exc_msg e))
                 w1)
          else (Raise e, w1)
      | None =>
          (globe ← mret (exec_globals r);
           match globe !! "_dist" with
           | None | Some (GVal PyNone) =>
               logger_error logger "distribution was not called";; mret None
           | Some dist => d ← lift (Distribution_new dist); mret (Some d)
           end) w1
      end.
Proof.
  intros Hread. unfold _execute, read_text.
  unfold mbind at 1. unfold M_bind at 1. rewrite Hread.
  fold (rewritten source).
  destruct (String.eqb (rewritten source) source); [reflexivity |].
  unfold mbind at 1. unfold M_bind at 1.
  unfold chdir, exec_logged. fold (safe_exec path source w).
  destruct (exec_raised (safe_exec path source w)) as [e|];
    [destruct (exc_is_Exception e) |]; reflexivity.
Qed.

(** C3, as the code has it. For a script that can be read. When the source
    has no setup call marker, nothing is executed: [_execute] logs an error
    and returns [None], and [load] runs the fallback. When it has one, the
    rewritten source is executed. An exception of the execution that is no
    instance of [Exception] is not caught: [_execute] raises it, and so does
    [load], with nothing logged. Any other exception is logged at error
    level and not raised again; then, and when the execution raised nothing,
    [_execute] logs an error and returns [None] when [_dist] is unset or
    [None], and [load] runs the fallback; otherwise [_execute] returns the
    distribution built from [_dist], and raises only what that constructor
    raises. *)
Theorem execute_recovers (path source : string) (w : World) :
  files w path = Ret source ->
  let r := safe_exec path source w in
  let w1 := set_cwd (cwd w) (exec_world r) in
  let w2 :=
    match exec_raised r with
    | Some e =>
        add_log (mk_log logger ERROR (exc_type e +:+ ": " +:+ exc_msg e)) w1
    | None => w1
    end in
  (PyStr.contains "setup(" source = false ->
   let w0 := add_log (mk_log logger ERROR "cannot modify source") w in
   rewritten source = source
   /\ _execute path w = (Ret None, w0)
   /\ load_info path w = fallback path w0)
  /\ (PyStr.contains "setup(" source = true ->
      rewritten source <> source
      /\ (forall e,
            exec_raised r = Some e -> exc_is_Exception e = false ->
            _execute path w = (Raise e, w1)
            /\ load path w = (Raise e, w1))
      /\ ((forall e, exec_raised r = Some e -> exc_is_Exception e = true) ->
          (dist_missing (exec_globals r) = true ->
           let w3 :=
             add_log (mk_log logger ERROR "distribution was not called") w2 in
           _execute path w = (Ret None, w3)
           /\ load_info path w = fallback path w3)
          /\ (forall dist,
                exec_globals r !! "_dist" = Some dist ->
                dist_missing (exec_globals r) = false ->
                _execute path w
                = (match Distribution_new dist with
                   | Ret d => Ret (Some d)
                   | Raise e => Raise e
                   end, w2)))).
Proof.
  intros Hread r w1 w2.
  pose proof (execute_readable path source w Hread) as Hexec.
  pose proof (rewrite_noop_iff source) as Hnoop. fold (rewritten source) in Hnoop.
  split.
  - intros Hmarker w0. apply Hnoop in Hmarker as Hsame.
    assert (He : _execute path w = (Ret None, w0)).
    { rewrite Hexec. rewrite Hsame, String.eqb_refl. reflexivity. }
    repeat split; [exact Hsame | exact He |].
    unfold load_info. unfold mbind, M_bind. now rewrite He.
  - intros Hmarker.
    assert (Hdiff : rewritten source <> source).
    { intros H%Hnoop. congruence. }
    apply String.eqb_neq in Hdiff as Hneq. rewrite Hneq in Hexec.
    cbv zeta in Hexec. fold r in Hexec. fold w1 in Hexec.
    split; [exact Hdiff | split].
    + intros e Hr He.
      assert (Hraise : _execute path w = (Raise e, w1)).
      { rewrite Hexec, Hr, He. reflexivity. }
      split; [exact Hraise |].
      unfold load, load_info. unfold mbind, M_bind. now rewrite Hraise.
    + intros Hexc.
      assert (Hrun : _execute path w =
                (globe ← mret (exec_globals r);
                 match globe !! "_dist" with
                 | None | Some (GVal PyNone) =>
                     logger_error logger "distribution was not called";;
                     mret None
                 | Some dist => d ← lift (Distribution_new dist); mret (Some d)
                 end) w2).
      { rewrite Hexec. unfold w2.
        destruct (exec_raised r) as [e|] eqn:Hr; [| reflexivity].
        now rewrite (Hexc e eq_refl). }
      split.
      * intros Hmissing w3.
        assert (He : _execute path w = (Ret None, w3)).
        { rewrite Hrun. unfold dist_missing in Hmissing.
          unfold mbind at 1. unfold M_bind at 1, mret at 1. unfold M_ret at 1.
          destruct (exec_globals r !! "_dist") as [[[] |]|]; try discriminate;
            reflexivity. }
        split; [exact He |].
        unfold load_info. unfold mbind, M_bind. now rewrite He.
      * intros dist Hdist Hmissing. rewrite Hrun.
        unfold dist_missing in Hmissing.
        unfold mbind at 1. unfold M_bind at 1, mret at 1. unfold M_ret at 1.
        rewrite Hdist in *.
        destruct dist as [[] |]; try discriminate;
          unfold mbind, M_bind, lift; now destruct (Distribution_new _).
Qed.

(** *** Where the exceptions of [load] come from *)

Lemma M_bind_lift_ret {A B : Type} (a : A) (k : A -> M B) (w : World) :
  (lift (Ret a) ≫= k) w = k a w.
Proof. reflexivity. Qed.

Lemma get_total (info : Distribution.t) (name : string) :
  scalar_ok info name -> exists s, _get info name = Ret s.
Proof.
  rewrite get_examined. cbv zeta. intros [H | [s H]]; rewrite H.
  - simpl. eauto.
  - destruct (negb _); [eauto |]. destruct (eq_str _ _); simpl; eauto.
Qed.

Lemma get_list_loop_total (elems : list pyval) (acc : list string) :
  Forall (fun v => exists s, v = PyStr s) elems ->
  exists l, foldM _get_list_step elems acc = Ret l.
Proof.
  intros Hall. apply foldM_total. intros v acc' Hin.
  rewrite Forall_forall in Hall.
  destruct (Hall v) as [s ->]; [now apply list_elem_of_In |].
  unfold _get_list_step. destruct (eq_str _ _); eauto.
Qed.

Lemma get_list_total (info : Distribution.t) (name : string) :
  strings_ok (getattr (Distribution.attrs info) name PyNone) ->
  exists l, _get_list info name = Ret l.
Proof.
  unfold _get_list, strings_ok.
  destruct (getattr (Distribution.attrs info) name PyNone) as [|s|l|l|d];
    intros Hok.
  - simpl. eauto.
  - destruct (negb _); [eauto |]. simpl. apply get_list_loop_total.
    apply Forall_fmap, Forall_true. intros c. simpl. eauto.
  - destruct (negb _); [eauto |]. simpl. now apply get_list_loop_total.
  - destruct (negb _); [eauto |]. simpl. now apply get_list_loop_total.
  - destruct (negb _); [eauto |]. simpl. apply get_list_loop_total.
    apply Forall_fmap, Forall_true. intros kv. simpl. eauto.
Qed.

(** The assembly returns on a well-formed distribution object when the
    inputs of the run are accepted. *)
Section AcceptedRun.
Variables (path : string) (info : Distribution.t) (w : World).
Hypothesis info_well_formed : well_formed info.
Hypothesis run_accepted : accepted path info w.

Lemma load_root_total :
  exists root w', load_root path info w = (Ret root, w').
Proof.
  destruct info_well_formed as (Hscalars & Hlists & _).
  destruct run_accepted as (Hrange & (readme & w' & Hreadme) & _).
  repeat match goal with
         | H : Forall _ (_ :: _) |- _ => apply Forall_cons in H as [? H]
         end.
  destruct (get_total info "python_requires") as [text Htext];
    [assumption |].
  destruct (Hrange text Htext) as [python Hpython].
  unfold load_root. rewrite Htext.
  repeat match goal with
         | H : scalar_ok info ?n |- context [_get info ?n] =>
             let s := fresh "s" in
             destruct (get_total _ _ H) as [s ->]; rewrite M_bind_lift_ret
         | H : strings_ok (getattr _ ?n _) |- context [_get_list info ?n] =>
             let l := fresh "l" in
             destruct (get_list_total _ _ H) as [l ->]; rewrite M_bind_lift_ret
         end.
  rewrite M_bind_lift_ret, Hpython, M_bind_lift_ret.
  unfold mbind, M_bind. rewrite Hreadme. unfold mret, M_ret. eauto.
Qed.

Lemma load_links_total (root : RootDependency.t) :
  exists root', load_links info root = Ret root'.
Proof.
  destruct info_well_formed as (Hscalars & _).
  repeat match goal with
         | H : Forall _ (_ :: _) |- _ => apply Forall_cons in H as [? H]
         end.
  unfold load_links. apply foldM_total.
  intros [key name] r [[= <- <-] | [[= <- <-] | []]];
    match goal with
    | H : scalar_ok info ?n |- context [_get info ?n] =>
        destruct (get_total _ _ H) as [s ->]
    end; simpl; eauto.
Qed.

Lemma load_authors_total (root : RootDependency.t) :
  exists root', load_authors info root = Ret root'.
Proof.
  destruct info_well_formed as (Hscalars & _).
  rewrite Forall_forall in Hscalars.
  unfold load_authors. apply foldM_total.
  intros name r [<- | [<- | []]].
  - change ("author" +:+ "_email") with "author_email".
    destruct (get_total info "author") as [s ->];
      [apply Hscalars; repeat constructor |].
    destruct (get_total info "author_email") as [mail ->];
      [apply Hscalars; repeat constructor |].
    simpl. destruct (String.eqb s ""); eauto.
  - change ("maintainer" +:+ "_email") with "maintainer_email".
    destruct (get_total info "maintainer") as [s ->];
      [apply Hscalars; repeat constructor |].
    destruct (get_total info "maintainer_email") as [mail ->];
      [apply Hscalars; repeat constructor |].
    simpl. destruct (String.eqb s ""); eauto.
Qed.

Lemma load_entrypoints_total (root : RootDependency.t) :
  exists root', load_entrypoints info root = Ret root'.
Proof.
  destruct info_well_formed as (_ & _ & Htable & _).
  destruct run_accepted as (_ & _ & Hparse & _).
  unfold load_entrypoints. cbv zeta in Htable |- *.
  fold (entry_points_table info).
  assert (Hok : table_ok (entry_points_table info)).
  { unfold entry_points_table. destruct Htable as [-> | Hok].
    - exists []. auto.
    - destruct Hok as (d & Hd & Hall). rewrite Hd.
      destruct d; [exists []; auto |]. exists (p :: d). auto. }
  destruct Hok as (d & Hd & Hall). rewrite Hd in Hparse |- *. simpl.
  cut (exists eps,
         foldM (fun '(group, content) entrypoints =>
                  texts ← py_iter content;
                  foldM (fun entrypoint entrypoints0 =>
                           e ← EntryPoint_parse entrypoint group;
                           mret (entrypoints0 ++ [e]))
                    texts entrypoints)
           d [] = Ret eps).
  { intros [eps ->]. simpl. eauto. }
  apply foldM_total. intros [group content] eps Hin.
  rewrite Forall_forall in Hall.
  assert (Hiter : exists texts, py_iter content = Ret texts).
  { specialize (Hall (group, content)). simpl in Hall.
    destruct content; simpl; eauto.
    exfalso. apply Hall; [now apply list_elem_of_In | reflexivity]. }
  destruct Hiter as [texts Htexts]. rewrite Htexts. simpl.
  apply foldM_total. intros text eps' Htext.
  destruct (Hparse d group content texts text eq_refl Hin Htexts Htext)
    as [e ->].
  simpl. eauto.
Qed.

Lemma load_install_requires_total (root : RootDependency.t) :
  exists root', load_install_requires info root = Ret root'.
Proof.
  destruct info_well_formed as (_ & Hlists & _).
  destruct run_accepted as (_ & _ & _ & Hreq & _).
  repeat match goal with
         | H : Forall _ (_ :: _) |- _ => apply Forall_cons in H as [? H]
         end.
  unfold load_install_requires.
  match goal with
  | H : strings_ok (getattr _ "install_requires" _) |- _ =>
      destruct (get_list_total _ _ H) as [texts Htexts]
  end.
  rewrite Htexts. simpl.
  cut (exists deps,
         foldM (fun text deps =>
                  req ← Requirement_new (PyStr text);
                  made ← DependencyMaker_from_requirement root req None;
                  mret (deps ++ made))
           texts [] = Ret deps).
  { intros [deps ->]. simpl. eauto. }
  apply foldM_total. intros text deps Htext.
  destruct (Hreq texts text Htexts Htext) as (req & -> & Hmake). simpl.
  destruct (Hmake root) as [made ->]. simpl. eauto.
Qed.

Lemma load_extras_total (root : RootDependency.t) :
  exists root', load_extras info root = Ret root'.
Proof.
  destruct info_well_formed as (_ & _ & _ & (d & Hd & Hall)).
  destruct run_accepted as (_ & _ & _ & _ & Hextras).
  unfold load_extras. rewrite Hd in Hextras |- *. simpl.
  apply foldM_total. intros [key reqs] r Hin.
  destruct (Hextras d key reqs eq_refl Hin)
    as (extra & marker & -> & Hreqs).
  simpl.
  rewrite Forall_forall in Hall.
  assert (Hiter : exists texts, py_iter reqs = Ret texts).
  { specialize (Hall (key, reqs)). simpl in Hall.
    destruct reqs; simpl; eauto.
    exfalso. apply Hall; [now apply list_elem_of_In | reflexivity]. }
  destruct Hiter as [texts Htexts]. rewrite Htexts. simpl.
  unfold load_extra_reqs. apply foldM_total. intros text r' Htext.
  destruct (Hreqs texts text Htexts Htext) as (req & -> & Hmake). simpl.
  destruct (Hmake r') as [deps ->]. simpl. eauto.
Qed.

Lemma load_fill_total (root : RootDependency.t) :
  exists root', load_fill info root = Ret root'.
Proof.
  unfold load_fill.
  destruct (load_links_total root) as [r1 ->]. simpl.
  destruct (load_authors_total r1) as [r2 ->]. simpl.
  destruct (load_entrypoints_total r2) as [r3 ->]. simpl.
  destruct (load_install_requires_total r3) as [r4 ->]. simpl.
  apply load_extras_total.
Qed.

(** After [load_info] has returned, [load] returns. *)
Lemma load_assembly_total (w0 : World) :
  load_info path w0 = (Ret info, w) ->
  exists root w', load path w0 = (Ret root, w').
Proof.
  intros Hinfo.
  destruct load_root_total as (root & w' & Hroot).
  destruct (load_fill_total root) as (root' & Hfill).
  exists root', w'. unfold load. unfold mbind, M_bind.
  rewrite Hinfo, Hroot. unfold lift. now rewrite Hfill.
Qed.

End AcceptedRun.

(** What [_execute] raises: the exception of reading the script, an
    exception of the execution that is no instance of [Exception], or the
    exception of the [Distribution] constructor. *)
Lemma execute_raise_inv (path : string) (w w' : World) (e : pyexc) :
  _execute path w = (Raise e, w') ->
  files w path = Raise e
  \/ exists source,
      files w path = Ret source
      /\ (exec_raised (safe_exec path source w) = Some e
          /\ exc_is_Exception e = false
          \/ exists dist,
              exec_globals (safe_exec path source w) !! "_dist" = Some dist
              /\ Distribution_new dist = Raise e).
Proof.
  destruct (files w path) as [source|e0] eqn:Hread.
  - rewrite (execute_readable path source w Hread). intros H.
    right. exists source. split; [reflexivity |].
    destruct (String.eqb (rewritten source) source); [discriminate |].
    cbv zeta in H.
    assert (Hdist : forall w0,
              (globe ← mret (exec_globals (safe_exec path source w));
               match globe !! "_dist" with
               | None | Some (GVal PyNone) =>
                   logger_error logger "distribution was not called";;
                   mret None
               | Some dist => d ← lift (Distribution_new dist); mret (Some d)
               end) w0 = (Raise e, w') ->
              exists dist,
                exec_globals (safe_exec path source w) !! "_dist" = Some dist
                /\ Distribution_new dist = Raise e).
    { intros w0. unfold mbind at 1. unfold M_bind at 1, mret at 1.
      unfold M_ret at 1.
      destruct (exec_globals (safe_exec path source w) !! "_dist")
        as [dist|]; [| discriminate].
      intros Hd. exists dist. split; [reflexivity |].
      destruct dist as [[] |]; try discriminate;
        unfold mbind, M_bind, lift in Hd;
        (destruct (Distribution_new _); [discriminate | congruence]). }
    destruct (exec_raised (safe_exec path source w)) as [e1|] eqn:Hr.
    + destruct (exc_is_Exception e1) eqn:He1.
      * right. exact (Hdist _ H).
      * left. injection H as <- _. auto.
    + right. exact (Hdist _ H).
  - unfold _execute, read_text. unfold mbind, M_bind. rewrite Hread.
    intros [= <- _]. now left.
Qed.

(** What [_execute] returns comes from the [Distribution] constructor,
    applied to the [_dist] of the execution. *)
Lemma execute_some_inv (path : string) (w w' : World) (info : Distribution.t) :
  _execute path w = (Ret (Some info), w') ->
  exists source dist,
    files w path = Ret source
    /\ exec_globals (safe_exec path source w) !! "_dist" = Some dist
    /\ Distribution_new dist = Ret info.
Proof.
  destruct (files w path) as [source|e0] eqn:Hread.
  - rewrite (execute_readable path source w Hread). intros H.
    exists source.
    destruct (String.eqb (rewritten source) source); [discriminate |].
    cbv zeta in H.
    assert (Hdist : forall w0,
              (globe ← mret (exec_globals (safe_exec path source w));
               match globe !! "_dist" with
               | None | Some (GVal PyNone) =>
                   logger_error logger "distribution was not called";;
                   mret None
               | Some dist => d ← lift (Distribution_new dist); mret (Some d)
               end) w0 = (Ret (Some info), w') ->
              exists dist,
                Ret source = Ret source
                /\ exec_globals (safe_exec path source w) !! "_dist" = Some dist
                /\ Distribution_new dist = Ret info).
    { intros w0. unfold mbind at 1. unfold M_bind at 1, mret at 1.
      unfold M_ret at 1.
      destruct (exec_globals (safe_exec path source w) !! "_dist")
        as [dist|]; [| discriminate].
      intros Hd. exists dist. split; [reflexivity |]. split; [reflexivity |].
      destruct dist as [[] |]; try discriminate;
        unfold mbind, M_bind, lift in Hd;
        (destruct (Distribution_new _); [| discriminate]);
        unfold mret, M_ret in Hd; congruence. }
    destruct (exec_raised (safe_exec path source w)) as [e1|];
      [destruct (exc_is_Exception e1); [| discriminate] |];
      exact (Hdist _ H).
  - unfold _execute, read_text. unfold mbind, M_bind. rewrite Hread.
    discriminate.
Qed.

(** An exception of the fallback leaves [load] as it is, the working
    directory restored. *)
Lemma fallback_raise_propagates (path : string) (w w1 w2 : World) (e : pyexc) :
  _execute path w = (Ret None, w1) ->
  run_setup (path_name path) (set_cwd (path_parent path) w1) = (Raise e, w2) ->
  load path w = (Raise e, set_cwd (cwd w1) w2).
Proof.
  intros Hexec Hsetup. unfold load, load_info.
  unfold mbind, M_bind. rewrite Hexec. unfold chdir. now rewrite Hsetup.
Qed.

(** What [load_info] returns: the result of the safe extraction, or else the
    result of the fallback. *)
Lemma load_info_ret_iff (path : string) (w w1 : World)
  (info : Distribution.t) :
  load_info path w = (Ret info, w1)
  <-> _execute path w = (Ret (Some info), w1)
      \/ exists w0 w2,
          _execute path w = (Ret None, w0)
          /\ run_setup (path_name path) (set_cwd (path_parent path) w0)
             = (Ret info, w2)
          /\ w1 = set_cwd (cwd w0) w2.
Proof.
  unfold load_info. unfold mbind, M_bind.
  destruct (_execute path w) as [[[i|]|e] w0] eqn:Hexec.
  - unfold mret, M_ret. split.
    + intros [= -> ->]. now left.
    + intros [[= -> ->] | (w0' & w2 & [=] & _)]. reflexivity.
  - unfold chdir.
    destruct (run_setup (path_name path) (set_cwd (path_parent path) w0))
      as [[i|e] w2] eqn:Hrun.
    + split.
      * intros [= -> <-]. right. exists w0, w2. auto.
      * intros [[=] | (w0' & w2' & [= <-] & Hrun' & ->)].
        rewrite Hrun in Hrun'. now injection Hrun' as -> ->.
    + split; [discriminate |].
      intros [[=] | (w0' & w2' & [= <-] & Hrun' & _)].
      rewrite Hrun in Hrun'. discriminate.
  - split; [discriminate |].
    intros [[=] | (w0' & w2 & [=] & _)].
Qed.

(** C2, as the code has it. An exception raised by [run_setup] leaves
    [load] unmodified. It is not the only one: an exception that leaves
    [load] was raised by [run_setup], or by [_execute] (the exception of
    reading the script, an exception of the safe execution that is no
    instance of [Exception], the exception of the [Distribution]
    constructor), or by the assembly of the root, after the safe extraction
    or the fallback had returned a distribution object; in the last case the
    object is not well-formed or one of the inputs of this run was not
    accepted. When the safe extraction succeeds or the fallback returns, the
    distribution object is well-formed and the inputs of the run are
    accepted, [load] returns a root. *)
Theorem load_raises_from (path : string) (w : World) :
  (forall e w1 w2,
     _execute path w = (Ret None, w1) ->
     run_setup (path_name path) (set_cwd (path_parent path) w1) = (Raise e, w2) ->
     load path w = (Raise e, set_cwd (cwd w1) w2))
  /\ (forall e w',
        load path w = (Raise e, w') ->
        (exists w1 w2,
           _execute path w = (Ret None, w1)
           /\ run_setup (path_name path) (set_cwd (path_parent path) w1)
              = (Raise e, w2)
           /\ w' = set_cwd (cwd w1) w2)
        \/ files w path = Raise e
        \/ (exists source,
              files w path = Ret source
              /\ (exec_raised (safe_exec path source w) = Some e
                  /\ exc_is_Exception e = false
                  \/ exists dist,
                      exec_globals (safe_exec path source w) !! "_dist"
                      = Some dist
                      /\ Distribution_new dist = Raise e))
        \/ exists info w1,
            load_info path w = (Ret info, w1)
            /\ (load_root path info w1 = (Raise e, w')
                \/ exists root,
                    load_root path info w1 = (Ret root, w')
                    /\ load_fill info root = Raise e)
            /\ ~ (well_formed info /\ accepted path info w1))
  /\ (forall info w1,
        _execute path w = (Ret (Some info), w1)
        \/ (exists w0 w2,
              _execute path w = (Ret None, w0)
              /\ run_setup (path_name path) (set_cwd (path_parent path) w0)
                 = (Ret info, w2)
              /\ w1 = set_cwd (cwd w0) w2) ->
        well_formed info -> accepted path info w1 ->
        exists root w', load path w = (Ret root, w')).
Proof.
  split; [intros e w1 w2; apply fallback_raise_propagates |]. split.
  - intros e w'. unfold load.
    intros [Hinfo | (info & w1 & Hinfo & Hrest)]%M_bind_raise_inv.
    + unfold load_info in Hinfo.
      apply M_bind_raise_inv in Hinfo as [Hexec | (i & w1 & Hexec & Hfall)].
      * right. apply execute_raise_inv in Hexec as [Hread | Hsource]; auto.
      * destruct i as [i|]; [discriminate |].
        left. unfold chdir in Hfall.
        destruct (run_setup (path_name path) (set_cwd (path_parent path) w1))
          as [[i|e'] w2] eqn:Hrun; [discriminate |].
        injection Hfall as -> <-. eauto.
    + do 3 right. exists info, w1. split; [exact Hinfo |].
      assert (Hwhere : load_root path info w1 = (Raise e, w')
                       \/ exists root,
                           load_root path info w1 = (Ret root, w')
                           /\ load_fill info root = Raise e).
      { apply M_bind_raise_inv in Hrest
          as [Hroot | (root & w2 & Hroot & [Hfill ->]%lift_inv)];
          [now left | right; eauto]. }
      split; [exact Hwhere |].
      intros [Hwf Hacc].
      destruct (load_root_total path info w1 Hwf Hacc) as (root & w2 & Hroot).
      destruct (load_fill_total path info w1 Hwf Hacc root) as (root' & Hfill).
      destruct Hwhere as [Hr | (root0 & Hr & Hf)]; rewrite Hroot in Hr;
        [discriminate |].
      injection Hr as <- _. rewrite Hfill in Hf. discriminate.
  - intros info w1 Hinfo%load_info_ret_iff Hwf Hacc.
    exact (load_assembly_total path info w1 Hwf Hacc w Hinfo).
Qed.

(** *** Name and version *)

(** C9, as the code has it. A root returned by [load] has the name that
    [_get] read, which has no default: it is the empty string when the name
    of the distribution object is missing, empty, UNKNOWN or blank. Its
    version is never empty: it is the stripped version of the distribution
    object, or 0.0.0 when that is missing, empty, UNKNOWN or blank. *)
Theorem load_name_and_version (path : string) (w w' : World)
  (root : RootDependency.t) :
  load path w = (Ret root, w') ->
  exists info w1 n v,
    load_info path w = (Ret info, w1)
    /\ _get info "name" = Ret n
    /\ RootDependency.raw_name root = n
    /\ _get info "version" = Ret v
    /\ RootDependency.version root = (if String.eqb v "" then "0.0.0" else v)
    /\ RootDependency.version root <> ""
    /\ (truthy (examined info "version") = false
        \/ examined info "version" = PyStr "UNKNOWN"
        \/ (exists s, examined info "version" = PyStr s
                      /\ PyStr.all_space s = true) ->
        RootDependency.version root = "0.0.0")
    /\ (truthy (examined info "name") = false
        \/ examined info "name" = PyStr "UNKNOWN"
        \/ (exists s, examined info "name" = PyStr s
                      /\ PyStr.all_space s = true) ->
        RootDependency.raw_name root = "").
Proof.
  intros (info & w1 & root0 & Hinfo & Hroot & Hfill)%load_inv.
  apply load_root_inv in Hroot as (n & v & Hn & Hv & Hrn & Hrv & _).
  apply load_fill_inv in Hfill as ((Hname & Hversion) & _).
  exists info, w1, n, v.
  assert (Hver : RootDependency.version root
                 = if String.eqb v "" then "0.0.0" else v)
    by (rewrite Hversion, Hrv; reflexivity).
  repeat split; try assumption; try congruence.
  - rewrite Hver. destruct (String.eqb_spec v ""); [discriminate | assumption].
  - intros Habsent. apply (get_absent info "version") in Habsent.
    rewrite Hver. assert (v = "") as -> by congruence. reflexivity.
  - intros Habsent. apply (get_absent info "name") in Habsent. congruence.
Qed.

(** *** Extras *)

(** C5. The dependencies of a root returned by [load] end with one group
    for each item of [extras_require], in order: the dependencies parsed
    from the requirement texts of the item, each with [envs] computed from
    the base name the key splits into. These [envs] are [{"dev"}] when the
    base name is dev, and [{"main", name}] for every other name. *)
Theorem load_extras_envs (path : string) (w w' : World)
  (root : RootDependency.t) :
  load path w = (Ret root, w') ->
  exists info w1 items base groups,
    load_info path w = (Ret info, w1)
    /\ py_items (getattr (Distribution.attrs info) "extras_require" (PyDict []))
       = Ret items
    /\ Forall2 extra_group items groups
    /\ RootDependency.dependencies root
       = base ++ flat_map (fun g => Dependency.set_envs (extra_envs (fst g))
                                      <$> snd g) groups
    /\ Forall (fun g =>
                 Forall (fun dep =>
                           (fst g = "dev" -> Dependency.envs dep = {[ "dev" ]})
                           /\ (fst g <> "dev" ->
                               Dependency.envs dep = {[ "main"; fst g ]}))
                   (Dependency.set_envs (extra_envs (fst g)) <$> snd g))
         groups.
Proof.
  intros (info & w1 & root0 & Hinfo & Hroot & Hfill)%load_inv.
  apply load_fill_inv in Hfill as (_ & deps & items & groups & Hi & Hg & Hd).
  exists info, w1, items, (RootDependency.dependencies root0 ++ deps), groups.
  repeat split; try assumption.
  apply Forall_forall. intros [extra made] _.
  apply Forall_forall. intros dep (dep0 & -> & _)%list_elem_of_fmap.
  unfold extra_envs. simpl.
  destruct (String.eqb_spec extra "dev") as [->|Hne]; split;
    intros; congruence.
Qed.

End Load.

(** The two theorems on the sample script with the extras dev and test. *)

Lemma load_name_and_version_witness :
  exists root w',
    load (C := Sample.collaborators Sample.setup_fails) "setup.py"
      (Sample.world Sample.script_extras) = (Ret root, w')
    /\ RootDependency.raw_name root = "x"
    /\ RootDependency.version root = "0.0.0".
Proof.
  eexists _, _. split; [vm_compute; reflexivity |].
  edestruct (load_name_and_version
               (C := Sample.collaborators Sample.setup_fails) "setup.py"
               (Sample.world Sample.script_extras))
    as (info & w1 & n & v & Hinfo & Hn & Hrn & Hv & Hrv & Hne & Hdefault & _);
    [vm_compute; reflexivity |].
  split; [reflexivity |].
  apply Hdefault. left.
  vm_compute in Hinfo. injection Hinfo as <- _. reflexivity.
Defined.

Lemma load_extras_envs_witness :
  exists root w',
    load (C := Sample.collaborators Sample.setup_fails) "setup.py"
      (Sample.world Sample.script_extras) = (Ret root, w')
    /\ Dependency.envs <$> RootDependency.dependencies root
       = [ {[ "dev" ]}; {[ "main"; "test" ]} ].
Proof.
  eexists _, _. split; [vm_compute; reflexivity |].
  edestruct (load_extras_envs
               (C := Sample.collaborators Sample.setup_fails) "setup.py"
               (Sample.world Sample.script_extras))
    as (info & w1 & items & base & groups & _);
    [vm_compute; reflexivity |].
  vm_compute. reflexivity.
Defined.

(** [execute_recovers] on two sample scripts. The rewritten text of the
    first does not compile: the [SyntaxError] is logged, [_dist] is missing,
    the result is [None]. The second leaves the interpreter: [SystemExit]
    leaves [load]. *)
Lemma execute_recovers_witness :
  _execute (C := Sample.collaborators Sample.setup_fails) "setup.py"
    (Sample.world Sample.script_def)
  = (Ret None,
     mk_world (files (Sample.world Sample.script_def)) "/home/user"
       [mk_log logger ERROR "SyntaxError: invalid syntax (setup.py, line 1)";
        mk_log logger ERROR "distribution was not called"])
  /\ load (C := Sample.collaborators Sample.setup_returns) "setup.py"
       (Sample.world Sample.script_exit)
     = (Raise (mk_exc "SystemExit" "1" false), Sample.world Sample.script_exit).
Proof.
  split.
  - destruct (execute_recovers (C := Sample.collaborators Sample.setup_fails)
                "setup.py" Sample.script_def (Sample.world Sample.script_def))
      as [_ Hmarker]; [reflexivity |].
    destruct Hmarker as (_ & _ & Hcaught); [vm_compute; reflexivity |].
    destruct Hcaught as [Hmissing _].
    { intros e. vm_compute. intros [= <-]. reflexivity. }
    destruct Hmissing as [Hexec _]; [vm_compute; reflexivity |].
    exact Hexec.
  - destruct (execute_recovers (C := Sample.collaborators Sample.setup_returns)
                "setup.py" Sample.script_exit (Sample.world Sample.script_exit))
      as [_ Hmarker]; [reflexivity |].
    destruct Hmarker as (_ & Hpropagates & _); [vm_compute; reflexivity |].
    destruct (Hpropagates (mk_exc "SystemExit" "1" false)) as [_ Hload];
      [vm_compute; reflexivity | reflexivity |].
    exact Hload.
Defined.

(** An exception raised after the setup call is logged, and the metadata
    captured before it is returned. *)
Example execute_logs_and_returns :
  _execute (C := Sample.collaborators Sample.setup_fails) "setup.py"
    (Sample.world Sample.script_error)
  = (Ret (Some (Distribution.mk {[ "name" := PyStr "x" ]} ∅)),
     mk_world (files (Sample.world Sample.script_error)) "/home/user"
       [mk_log logger ERROR "ValueError: boom"]).
Proof. vm_compute. reflexivity. Qed.

(** C3 as stated fails: a script that calls [sys.exit] before its setup
    call makes [_execute] raise [SystemExit], which is no instance of
    [Exception]. *)
Lemma execute_raises_system_exit :
  _execute (C := Sample.collaborators Sample.setup_returns) "setup.py"
    (Sample.world Sample.script_exit)
  = (Raise (mk_exc "SystemExit" "1" false), Sample.world Sample.script_exit).
Proof. vm_compute. reflexivity. Qed.

(** Each element of a list given in full has the property. *)
Local Ltac each tac :=
  repeat match goal with
         | |- Forall _ (_ :: _) => constructor; [tac |]
         | |- Forall _ [] => constructor
         end.

(** A sample distribution object is well-formed, by evaluation. *)
Local Ltac sample_well_formed :=
  unfold well_formed; split; [| split; [| split]];
  [ each ltac:(first [left; vm_compute; reflexivity
                     | right; eexists; vm_compute; reflexivity])
  | each ltac:(vm_compute;
               first [exact I | each ltac:(eexists; reflexivity)])
  | cbv zeta;
    first [left; vm_compute; reflexivity
          | right; eexists; split;
            [vm_compute; reflexivity | each ltac:(discriminate)]]
  | eexists; split; [vm_compute; reflexivity | each ltac:(discriminate)] ].

(** The sample parsers accept a requirement text that is given in full. *)
Local Ltac sample_parsed :=
  eexists; split; [vm_compute; reflexivity | intros ?; eexists; reflexivity].

(** [load_raises_from] on three runs. With no setup call in the script and
    a failing [run_setup], the exception of [run_setup] is the result of
    [load]. With a requirement parser that rejects the empty text, [load]
    returns on the sample script with extras, whose distribution object
    comes from the safe extraction, and on the sample project, whose
    distribution object comes from the fallback: the requirement texts of
    both are accepted. *)
Lemma load_raises_from_witness :
  load (C := Sample.collaborators Sample.setup_fails) "setup.py"
    (Sample.world Sample.script_no_call)
  = (Raise Sample.setup_error,
     mk_world (files (Sample.world Sample.script_no_call)) "/home/user"
       [mk_log logger ERROR "cannot modify source"])
  /\ (exists root w',
        load (C := Sample.strict Sample.setup_fails) "setup.py"
          (Sample.world Sample.script_extras) = (Ret root, w'))
  /\ (exists root w',
        load (C := Sample.strict SampleProject.setup) "setup.py"
          SampleProject.world = (Ret root, w')).
Proof.
  split; [| split].
  - destruct (load_raises_from (C := Sample.collaborators Sample.setup_fails)
                "setup.py" (Sample.world Sample.script_no_call))
      as (Hpropagates & _).
    apply (Hpropagates Sample.setup_error
             (mk_world (files (Sample.world Sample.script_no_call)) "/home/user"
                [mk_log logger ERROR "cannot modify source"])
             (mk_world (files (Sample.world Sample.script_no_call)) "."
                [mk_log logger ERROR "cannot modify source"]));
      vm_compute; reflexivity.
  - destruct (load_raises_from (C := Sample.strict Sample.setup_fails)
                "setup.py" (Sample.world Sample.script_extras))
      as (_ & _ & Hreturns).
    eapply Hreturns; [left; vm_compute; reflexivity | sample_well_formed |].
    repeat split.
    + intros s _. eexists. reflexivity.
    + eexists _, _. reflexivity.
    + intros. eexists. reflexivity.
    + intros texts text [= <-] [].
    + intros items key reqs [= <-] [[= <- <-] | [[= <- <-] | []]];
        eexists _, _; (split; [vm_compute; reflexivity |]);
        intros texts text [= <-] [<- | []]; sample_parsed.
  - destruct (load_raises_from (C := Sample.strict SampleProject.setup)
                "setup.py" SampleProject.world)
      as (_ & _ & Hreturns).
    eapply Hreturns;
      [right; eexists _, _; repeat split; vm_compute; reflexivity
      | sample_well_formed |].
    repeat split.
    + intros s _. eexists. reflexivity.
    + eexists _, _. reflexivity.
    + intros. eexists. reflexivity.
    + intros texts text [= <-] [<- | [<- | []]]; sample_parsed.
    + intros items key reqs [= <-] [].
Defined.

(** C2 as stated fails. With a [run_setup] that never raises, [load] raises
    the [FileNotFoundError] of reading a script that does not exist, and the
    [SystemExit] of a script that leaves the interpreter. After a safe
    extraction that succeeds, and after a fallback that returns, [load]
    raises the [AttributeError] of calling [.items()] on entry points given
    as a string. *)
Lemma load_raises_without_fallback :
  let returns := Sample.collaborators Sample.setup_returns in
  let no_items :=
    AttributeError (PyStr "[console_scripts]
x = x:main") "items" in
  (forall script_name w,
     Sample.setup_returns script_name w = (Ret (Distribution.mk ∅ ∅), w))
  /\ load (C := returns) "setup.py" Sample.empty_world
     = (Raise (Sample.not_found "setup.py"), Sample.empty_world)
  /\ load (C := returns) "setup.py" (Sample.world Sample.script_exit)
     = (Raise (mk_exc "SystemExit" "1" false), Sample.world Sample.script_exit)
  /\ _execute (C := returns) "setup.py"
       (Sample.world Sample.script_entry_points)
     = (Ret (Some (Distribution.mk {[ "name" := PyStr "x" ]}
                     {[ "entry_points" := PyStr "[console_scripts]
x = x:main" ]})),
        Sample.world Sample.script_entry_points)
  /\ load (C := returns) "setup.py" (Sample.world Sample.script_entry_points)
     = (Raise no_items, Sample.world Sample.script_entry_points)
  /\ load (C := Sample.collaborators Sample.setup_entry_points) "setup.py"
       (Sample.world Sample.script_no_call)
     = (Raise no_items,
        mk_world (files (Sample.world Sample.script_no_call)) "/home/user"
          [mk_log logger ERROR "cannot modify source"]).
Proof. repeat split; vm_compute; reflexivity. Qed.

(** C9 as stated fails: when the distribution object has no name, [load]
    returns a root whose name is the empty string; only the version has a
    default. *)
Lemma load_returns_unnamed :
  exists root w',
    load (C := Sample.collaborators Sample.setup_returns) "setup.py"
      (Sample.world Sample.script_no_call)
    = (Ret root, w')
    /\ RootDependency.raw_name root = ""
    /\ RootDependency.version root = "0.0.0".
Proof. eexists _, _. repeat split; vm_compute; reflexivity. Qed.

End LoadFacts.

(** ** [PackageManager.run] *)

Module RunFacts.
Import Py PackageManager.

Section Run.
Context {S : Subprocess}.


End Run.


End RunFacts.

(** * Further properties *)

(** ** Substrings, the rewrite, stripping and sorting *)

Module TextFacts.
Import PyStr PyStrFacts.

#[local] Arguments String.append !s1 s2 : simpl nomatch.

(** *** [startswith] and [in] *)

Lemma startswith_append (p s : string) : startswith p (p +:+ s) = true.
Proof.
  induction p as [|a p' IH]; simpl; [reflexivity |].
  now rewrite Ascii.eqb_refl, IH.
Qed.

Lemma startswith_split (p s : string) :
  startswith p s = true -> exists t, s = p +:+ t.
Proof.
  revert s. induction p as [|a p' IH]; intros s; simpl.
  - intros _. now exists s.
  - destruct s as [|b s']; [discriminate |].
    intros [Hab Hp]%andb_true_iff. apply Ascii.eqb_eq in Hab as ->.
    destruct (IH _ Hp) as [t ->]. now exists t.
Qed.

Lemma contains_split (sub s : string) :
  contains sub s = true -> exists a b, s = a +:+ sub +:+ b.
Proof.
  induction s as [|c s' IH]; simpl; [discriminate |].
  intros [H | H]%orb_true_iff.
  - apply startswith_split in H as [t Ht]. exists "", t. exact Ht.
  - destruct (IH H) as (a & b & ->). now exists (String c a), b.
Qed.

Lemma contains_append (sub a b : string) :
  sub <> "" -> contains sub (a +:+ sub +:+ b) = true.
Proof.
  intros Hsub. induction a as [|c a' IH]; simpl.
  - destruct sub as [|x sub']; [congruence |].
    change (String x sub' +:+ b) with (String x (sub' +:+ b)).
    cbn [contains].
    change (String x (sub' +:+ b)) with (String x sub' +:+ b).
    now rewrite startswith_append.
  - rewrite IH. apply orb_true_r.
Qed.

(** [sub in s], for a non-empty [sub], says that [s] has [sub] as a
    substring. *)
Lemma contains_iff (sub s : string) :
  sub <> "" ->
  contains sub s = true <-> exists a b, s = a +:+ sub +:+ b.
Proof.
  intros Hsub. split; [apply contains_split |].
  intros (a & b & ->). now apply contains_append.
Qed.

(** *** No occurrence is left by [replace] *)

Section NoOccurrence.
Variables (old new new' : string) (u : ascii).
Hypothesis new_head : new = String u new'.
Hypothesis head_not_in_old : has_char u old = false.
Hypothesis none_through_new :
  forall t, contains old (new +:+ t) = contains old t.

(** A prefix of the output in which the first character of [new] does not
    occur is a prefix of the input. *)
Lemma startswith_replace (p s : string) :
  has_char u p = false ->
  startswith p (replace_from old new 0 s) = true -> startswith p s = true.
Proof.
  revert p. induction s as [|c s' IH]; intros p Hp.
  - simpl. now destruct p.
  - cbn [replace_from]. destruct (startswith old (String c s')).
    + rewrite new_head. destruct p as [|a p']; [reflexivity |].
      simpl. simpl in Hp. apply orb_false_iff in Hp as [Hua _].
      intros [Hau _]%andb_true_iff. apply Ascii.eqb_eq in Hau as ->.
      now rewrite Ascii.eqb_refl in Hua.
    + destruct p as [|a p']; [reflexivity |].
      simpl. simpl in Hp. apply orb_false_iff in Hp as [_ Hp'].
      intros [-> H]%andb_true_iff. simpl. now apply IH.
Qed.

Lemma replace_from_leaves_none (k : nat) (s : string) :
  contains old (replace_from old new k s) = false.
Proof.
  revert k. induction s as [|c s' IH]; intros k; [reflexivity |].
  destruct k as [|k]; [| apply IH].
  destruct (startswith old (String c s')) eqn:Hhead.
  - cbn [replace_from]. rewrite Hhead. rewrite none_through_new. apply IH.
  - assert (Hout : replace_from old new 0 (String c s')
                   = String c (replace_from old new 0 s'))
      by (cbn [replace_from]; now rewrite Hhead).
    destruct (startswith old (replace_from old new 0 (String c s'))) eqn:Hs.
    + apply startswith_replace in Hs; [congruence | exact head_not_in_old].
    + rewrite Hout in Hs |- *. cbn [contains]. rewrite Hs. apply IH.
Qed.

End NoOccurrence.

(** *** [strip] is idempotent *)

Lemma lstrip_fixed (s : string) :
  (forall c t, s = String c t -> is_space c = false) -> lstrip s = s.
Proof.
  destruct s as [|c t]; [reflexivity |].
  intros H. simpl. now rewrite (H c t eq_refl).
Qed.

Lemma rstrip_cons (c : ascii) (s : string) :
  rstrip (String c s) =
    match rstrip s with
    | EmptyString => if is_space c then EmptyString else String c EmptyString
    | r => String c r
    end.
Proof. reflexivity. Qed.

Lemma rstrip_idempotent (s : string) : rstrip (rstrip s) = rstrip s.
Proof.
  induction s as [|c s' IH]; [reflexivity |].
  rewrite rstrip_cons. destruct (rstrip s') as [|b r] eqn:Hr.
  - destruct (is_space c) eqn:Hc; [reflexivity |].
    rewrite rstrip_cons. simpl. now rewrite Hc.
  - rewrite rstrip_cons. now rewrite IH.
Qed.

Lemma strip_idempotent (s : string) : strip (strip s) = strip s.
Proof.
  unfold strip at 1. rewrite lstrip_fixed.
  - unfold strip. apply rstrip_idempotent.
  - intros c t H. exact (strip_head _ _ _ H).
Qed.

(** *** [sorted] *)

Lemma str_le_total (a b : string) : str_le a b = false -> str_le b a = true.
Proof.
  unfold str_le. rewrite (String.compare_antisym a b).
  now destruct (String.compare b a).
Qed.

Lemma insert_sorted_perm (x : string) (l : list string) :
  insert_sorted x l ≡ₚ x :: l.
Proof.
  induction l as [|y l' IH]; simpl; [reflexivity |].
  destruct (str_le x y); [reflexivity |].
  rewrite IH. apply Permutation_swap.
Qed.

Lemma insert_sorted_sorted (x : string) (l : list string) :
  Sorted (fun a b => str_le a b = true) l ->
  Sorted (fun a b => str_le a b = true) (insert_sorted x l).
Proof.
  induction l as [|y l' IH]; simpl; intros Hl.
  - repeat constructor.
  - destruct (str_le x y) eqn:Hxy.
    + constructor; [exact Hl | now constructor].
    + inversion Hl as [|? ? Hl' Hhd]; subst.
      constructor; [now apply IH |].
      destruct l' as [|z l'']; simpl.
      * constructor. now apply str_le_total.
      * destruct (str_le x z).
        -- constructor. now apply str_le_total.
        -- constructor. now inversion Hhd.
Qed.

Lemma sorted_perm (l : list string) : sorted l ≡ₚ l.
Proof.
  unfold sorted. induction l as [|x l' IH]; simpl; [reflexivity |].
  now rewrite insert_sorted_perm, IH.
Qed.

Lemma sorted_sorted (l : list string) :
  Sorted (fun a b => str_le a b = true) (sorted l).
Proof.
  unfold sorted. induction l as [|x l' IH]; simpl; [constructor |].
  now apply insert_sorted_sorted.
Qed.

End TextFacts.

(** ** The rewrite and format detection *)

Module RewriteFacts.
Import Py SetupPy PyStrFacts TextFacts.

#[local] Arguments String.append !s1 s2 : simpl nomatch.

(** The rewrite of [_execute] leaves no setup call marker: whatever the
    source, the text handed to [exec] does not contain [setup(], and
    rewriting it again changes nothing. *)
Theorem rewritten_has_no_marker (source : string) :
  PyStr.contains "setup(" (rewritten source) = false
  /\ rewritten (rewritten source) = rewritten source.
Proof.
  assert (H : PyStr.contains "setup(" (rewritten source) = false).
  { unfold rewritten, PyStr.replace.
    apply (replace_from_leaves_none "setup(" "_dist = dict(" "dist = dict(" "_");
      [reflexivity | reflexivity | intros t; reflexivity]. }
  split; [exact H |].
  now apply rewrite_noop_iff.
Qed.

Section Detection.
Context {MT : ModelTypes} {C : Collaborators}.

(** A file named setup.py is accepted whatever its content. Any other file
    is accepted exactly when its content has [setup(] as a substring and
    has [setuptools] or [distutils] as a substring; with no content, or an
    empty one, it is refused. A file accepted for its content is one that
    the rewrite of [_execute] changes. *)
Theorem can_parse_accepts (path : string) :
  (path_name path = "setup.py" -> forall content, can_parse path content = true)
  /\ (path_name path <> "setup.py" ->
      can_parse path None = false
      /\ can_parse path (Some "") = false
      /\ forall content,
          (can_parse path (Some content) = true
           <-> ((exists a b, content = a +:+ "setuptools" +:+ b)
                \/ (exists a b, content = a +:+ "distutils" +:+ b))
               /\ exists a b, content = a +:+ "setup(" +:+ b)
          /\ (can_parse path (Some content) = true ->
              rewritten content <> content)).
Proof.
  unfold can_parse. split.
  - intros ->. reflexivity.
  - intros Hname%String.eqb_neq. rewrite Hname.
    split; [reflexivity |]. split; [reflexivity |].
    intros content.
    assert (Hiff : (if negb (PyStr.contains "setuptools" content)
                       && negb (PyStr.contains "distutils" content)
                    then false else PyStr.contains "setup(" content) = true
                   <-> (PyStr.contains "setuptools" content = true
                        \/ PyStr.contains "distutils" content = true)
                       /\ PyStr.contains "setup(" content = true).
    { destruct (PyStr.contains "setuptools" content),
        (PyStr.contains "distutils" content),
        (PyStr.contains "setup(" content); simpl; intuition discriminate. }
    destruct content as [|c content'].
    { split; [| discriminate].
      split; [discriminate |].
      intros (_ & a & b & H). destruct a; discriminate. }
    rewrite Hiff. rewrite !contains_iff by discriminate.
    split; [reflexivity |].
    intros (_ & Hmarker). apply contains_iff in Hmarker; [| discriminate].
    intros Hsame%rewrite_noop_iff. congruence.
Qed.

End Detection.

End RewriteFacts.

(** ** Reading a value again *)

Module RereadFacts.
Import Py SetupPy MonadFacts PyStrFacts TextFacts GetterFacts.

(** What [_get] returned, unless it is UNKNOWN, is returned unchanged by
    [_get] when it is the value examined. *)
Theorem get_reread (msg msg' : Distribution.t) (name name' r : string) :
  _get msg name = Ret r ->
  r <> "UNKNOWN" ->
  examined msg' name' = PyStr r ->
  _get msg' name' = Ret r.
Proof.
  intros Hget Hr Hexamined. rewrite get_examined. cbv zeta. rewrite Hexamined.
  destruct r as [|c r']; [reflexivity |].
  cbn [truthy negb eq_str py_strip].
  destruct (String.eqb_spec (String c r') "UNKNOWN") as [|_]; [congruence |].
  apply get_ret_cases in Hget as [| [s Hs]]; [discriminate |].
  rewrite Hs. now rewrite strip_idempotent.
Qed.

Lemma get_reread_witness :
  _get (Distribution.mk {[ "license" := PyStr "MIT" ]} ∅) "license" = Ret "MIT".
Proof.
  apply (get_reread
           (Distribution.mk {[ "license" := PyStr "  MIT " ]} ∅)
           _ "license" "license" "MIT").
  - reflexivity.
  - discriminate.
  - reflexivity.
Defined.

(** [_get] compares with UNKNOWN before it strips: a string that is UNKNOWN
    with whitespace around it is not taken as absent, the result is the
    literal UNKNOWN. *)
Theorem get_padded_unknown (msg : Distribution.t) (name s : string) :
  examined msg name = PyStr s ->
  s <> "UNKNOWN" ->
  PyStr.strip s = "UNKNOWN" ->
  _get msg name = Ret "UNKNOWN".
Proof.
  intros Hexamined Hs Hstrip. rewrite get_examined. cbv zeta.
  rewrite Hexamined.
  destruct s as [|c s']; [discriminate |].
  cbn [truthy negb eq_str py_strip].
  destruct (String.eqb_spec (String c s') "UNKNOWN") as [|_]; [congruence |].
  now rewrite Hstrip.
Qed.

Lemma get_padded_unknown_witness :
  _get (Distribution.mk {[ "version" := PyStr " UNKNOWN" ]} ∅) "version"
  = Ret "UNKNOWN".
Proof.
  apply (get_padded_unknown _ "version" " UNKNOWN").
  - reflexivity.
  - discriminate.
  - reflexivity.
Defined.

(** the entries [_get_list] keeps *)
Local Abbreviation kept s :=
  ((s : string) <> "UNKNOWN" /\ PyStr.strip s <> "").

Lemma get_list_step_kept (value : pyval) (acc acc' : list string) :
  Forall (fun s => kept s) acc ->
  _get_list_step value acc = Ret acc' ->
  Forall (fun s => kept s) acc'.
Proof.
  intros Hacc. unfold _get_list_step.
  destruct (eq_str value "UNKNOWN") eqn:Hu; [now intros [= <-] |].
  destruct value as [|s| | |]; try discriminate.
  destruct (String.eqb_spec (PyStr.strip s) "") as [Hb|Hb];
    intros [= <-]; [exact Hacc |].
  apply Forall_app. split; [exact Hacc |].
  constructor; [| constructor]. split; [| exact Hb].
  simpl in Hu. now apply String.eqb_neq.
Qed.

Lemma get_list_kept (msg : Distribution.t) (name : string) (l : list string) :
  _get_list msg name = Ret l -> Forall (fun s => kept s) l.
Proof.
  unfold _get_list. destruct (negb _); [intros [= <-]; constructor |].
  intros (elems & _ & Hloop)%bind_ret_inv.
  apply (foldM_invariant (fun acc => Forall (fun s => kept s) acc)
           _get_list_step elems) with (s := []); [| constructor | exact Hloop].
  intros v acc acc' _. apply get_list_step_kept.
Qed.

(** A tuple or list that [_get_list] returned is returned unchanged by
    [_get_list] when it is the attribute read. *)
Theorem get_list_reread (msg msg' : Distribution.t) (name name' : string)
  (l : list string) :
  _get_list msg name = Ret l ->
  getattr (Distribution.attrs msg') name' PyNone = PyTuple (PyStr <$> l)
  \/ getattr (Distribution.attrs msg') name' PyNone = PyList (PyStr <$> l) ->
  _get_list msg' name' = Ret l.
Proof.
  intros Hkept%get_list_kept Hattr.
  assert (Hfilter : filter (fun s => kept s) l = l).
  { clear Hattr. induction Hkept as [|s l' Hs _ IH]; [reflexivity |].
    rewrite filter_cons, decide_True by exact Hs. now rewrite IH. }
  unfold _get_list.
  destruct Hattr as [-> | ->];
    (destruct l as [|s l']; [reflexivity |]);
    (transitivity (Ret ([] ++ filter (fun s => kept s) (s :: l')));
     [apply (get_list_loop_strings (s :: l') []) | now rewrite Hfilter]).
Qed.

Lemma get_list_reread_witness :
  _get_list
    (Distribution.mk ∅ {[ "keywords" := PyTuple (PyStr <$> ["foo"; "bar"]) ]})
    "keywords"
  = Ret ["foo"; "bar"].
Proof.
  apply (get_list_reread
           (Distribution.mk ∅
              {[ "keywords" := PyList (PyStr <$> ["foo"; "UNKNOWN"; "bar"]) ]})
           _ "keywords" "keywords").
  - reflexivity.
  - left. reflexivity.
Defined.

Lemma chars_kept (s : string) :
  filter (fun t => kept t) (PyStr.chars s)
  = filter (fun t => PyStr.all_space t = false) (PyStr.chars s).
Proof.
  induction s as [|c s' IH]; [reflexivity |].
  cbn [PyStr.chars]. rewrite !filter_cons, IH.
  destruct (PyStr.is_space c) eqn:Hc.
  - rewrite decide_False, decide_False; [reflexivity | |].
    + simpl. rewrite Hc. discriminate.
    + intros [_ H]. apply H. apply strip_empty_iff. simpl. now rewrite Hc.
  - rewrite decide_True, decide_True; [reflexivity | |].
    + simpl. now rewrite Hc.
    + split.
      * intros H. apply (f_equal String.length) in H. discriminate.
      * intros H%strip_empty_iff. simpl in H. rewrite Hc in H. discriminate.
Qed.

(** An attribute that is one string is read character by character:
    [_get_list] returns its characters that are not whitespace, each as a
    string of its own. *)
Theorem get_list_of_string (msg : Distribution.t) (name s : string) :
  getattr (Distribution.attrs msg) name PyNone = PyStr s ->
  _get_list msg name
  = Ret (filter (fun t => PyStr.all_space t = false) (PyStr.chars s)).
Proof.
  intros Hattr. unfold _get_list. rewrite Hattr.
  destruct s as [|c s']; [reflexivity |].
  cbn [truthy negb py_iter mbind outcome_bind].
  rewrite (get_list_loop_strings (PyStr.chars (String c s')) []).
  now rewrite chars_kept.
Qed.

Lemma get_list_of_string_witness :
  _get_list (Distribution.mk ∅ {[ "keywords" := PyStr "ab c" ]}) "keywords"
  = Ret ["a"; "b"; "c"].
Proof.
  apply (get_list_of_string _ "keywords" "ab c"). reflexivity.
Defined.

End RereadFacts.

(** ** The keyword list of [dumps] *)

Module KeywordFacts.
Import Py SetupPy PyStrFacts TextFacts DumpsFacts.

(** *** Grouping with a [defaultdict(list)] *)

(** After [for x in l: d[f(x)].append(g(x))], the list under [k] is what it
    was, followed by [g(x)] for the elements with [f(x) == k], in order. *)
Lemma grouping_get {A : Type} (f g : A -> string) (k : string) (l : list A)
  (d : list (string * list string)) :
  dd_get k (fold_left (fun d x => dd_append (f x) (g x) d) l d)
  = dd_get k d ++ (g <$> filter (fun x => f x = k) l).
Proof.
  revert d. induction l as [|x l' IH]; intros d; simpl.
  - now rewrite app_nil_r.
  - rewrite IH, dd_get_append, filter_cons.
    destruct (String.eqb_spec k (f x)) as [Heq|Hne].
    + rewrite decide_True by congruence. simpl. now rewrite <- app_assoc.
    + rewrite decide_False by congruence. reflexivity.
Qed.

(** Mapping the lists of such a dict maps the list under each key. *)
Lemma dd_get_map_values (h : list string -> list string) (k : string)
  (d : list (string * list string)) :
  h [] = [] ->
  dd_get k ((fun kv => (fst kv, h (snd kv))) <$> d) = h (dd_get k d).
Proof.
  intros Hnil. induction d as [|[k0 vs] d' IH]; simpl; [now rewrite Hnil |].
  now destruct (String.eqb k k0).
Qed.

Section Keywords.
Context {MT : ModelTypes} {C : Collaborators}.

(** drop the leading segments of the list that cannot hold the key *)
Local Ltac skip_segments :=
  repeat (rewrite dict_lookup_app_none;
          [| simpl; repeat case_match; reflexivity]).

(** A keyword other than the two requirement keywords is looked up among
    the pairs appended before the requirements. *)
Lemma content_lookup_metadata (reqs : list Requirement.t)
  (project : RootDependency.t) (package : Package.t) (k : string) :
  k <> "install_requires" -> k <> "extras_require" ->
  dict_lookup k (dumps_content reqs project package)
  = dict_lookup k (dumps_metadata project package).
Proof.
  intros H1%String.eqb_neq H2%String.eqb_neq.
  unfold dumps_content. rewrite dict_lookup_app.
  destruct (dict_lookup k (dumps_metadata project package)); [reflexivity |].
  simpl. rewrite H1. destruct (dumps_extras reqs); simpl; [reflexivity |].
  now rewrite H2.
Qed.

(** The keywords of the emitted call come in one fixed order, each at most
    once, and [long_description], which the template passes itself, is
    never among them; name, version, packages, package_data and
    install_requires are always there. *)
Theorem dumps_keywords_in_order (reqs : list Requirement.t)
  (project : RootDependency.t) (package : Package.t) :
  let keys := fst <$> dumps_content reqs project package in
  keys `sublist_of`
    ["name"; "version"; "description"; "python_requires"; "url";
     "download_url"; "project_urls"; "author"; "author_email"; "maintainer";
     "maintainer_email"; "license"; "keywords"; "classifiers"; "platforms";
     "entry_points"; "packages"; "package_data"; "install_requires";
     "extras_require"]
  /\ NoDup keys
  /\ ~ "long_description" ∈ keys
  /\ Forall (fun k => k ∈ keys)
       ["name"; "version"; "packages"; "package_data"; "install_requires"].
Proof.
  intros keys.
  assert (Hsub : keys `sublist_of`
            ["name"; "version"; "description"; "python_requires"; "url";
             "download_url"; "project_urls"; "author"; "author_email";
             "maintainer"; "maintainer_email"; "license"; "keywords";
             "classifiers"; "platforms"; "entry_points"; "packages";
             "package_data"; "install_requires"; "extras_require"]).
  { unfold keys, dumps_content, dumps_metadata. cbv zeta.
    rewrite !fmap_app.
    change ["name"; "version"; "description"; "python_requires"; "url";
            "download_url"; "project_urls"; "author"; "author_email";
            "maintainer"; "maintainer_email"; "license"; "keywords";
            "classifiers"; "platforms"; "entry_points"; "packages";
            "package_data"; "install_requires"; "extras_require"]
      with ((["name"; "version"] ++ ["description"] ++ ["python_requires"]
             ++ ["url"; "download_url"] ++ ["project_urls"]
             ++ ["author"; "author_email"] ++ ["maintainer"; "maintainer_email"]
             ++ ["license"] ++ ["keywords"] ++ ["classifiers"] ++ ["platforms"]
             ++ ["entry_points"] ++ ["packages"; "package_data"])
            ++ ["install_requires"] ++ ["extras_require"]).
    repeat apply sublist_app;
      simpl; repeat case_match; simpl; repeat constructor. }
  assert (Hall : NoDup
            ["name"; "version"; "description"; "python_requires"; "url";
             "download_url"; "project_urls"; "author"; "author_email";
             "maintainer"; "maintainer_email"; "license"; "keywords";
             "classifiers"; "platforms"; "entry_points"; "packages";
             "package_data"; "install_requires"; "extras_require"]).
  { apply (bool_decide_unpack _). vm_compute. exact I. }
  split; [exact Hsub |].
  split; [exact (sublist_NoDup _ _ Hall Hsub) |].
  split.
  - intros Hin. apply (elem_of_sublist _ _ _ Hin) in Hsub.
    revert Hsub. apply (bool_decide_unpack _). vm_compute. exact I.
  - unfold keys, dumps_content, dumps_metadata. cbv zeta.
    rewrite !fmap_app. repeat constructor; set_solver.
Qed.

(** [author] and [author_email] are taken from the first author of the
    project, [maintainer] and [maintainer_email] from the second; a mail is
    emitted only when it is not empty, and no author after the second has
    any part in the keyword list. *)
Theorem dumps_authors_by_position (reqs : list Requirement.t)
  (project : RootDependency.t) (package : Package.t) :
  let content := dumps_content reqs project package in
  let authors := RootDependency.authors project in
  let mail (a : option Author.t) :=
    match a with
    | Some a =>
        if str_truthy (Author.mail a) then Some (PyStr (Author.mail a))
        else None
    | None => None
    end in
  dict_lookup "author" content
  = (fun a => PyStr (Author.name a)) <$> authors !! 0
  /\ dict_lookup "author_email" content = mail (authors !! 0)
  /\ dict_lookup "maintainer" content
     = (fun a => PyStr (Author.name a)) <$> authors !! 1
  /\ dict_lookup "maintainer_email" content = mail (authors !! 1).
Proof.
  intros content authors mail. unfold content.
  rewrite !content_lookup_metadata by discriminate.
  unfold authors, mail, dumps_metadata. cbv zeta.
  destruct (RootDependency.authors project) as [|a1 [|a2 rest]];
    repeat split; skip_segments; simpl;
    repeat first [reflexivity | progress skip_segments | case_match; simpl].
Qed.

(** The value of [entry_points] maps each group to the renderings of the
    entry points of that group, in their order in the project; the keyword
    is left out when the project has no entry point. *)
Theorem dumps_entry_points_grouped (reqs : list Requirement.t)
  (project : RootDependency.t) (package : Package.t) :
  let entrypoints := RootDependency.entrypoints project in
  exists d,
    dict_lookup "entry_points" (dumps_content reqs project package)
    = match entrypoints with
      | [] => None
      | _ => Some (str_list_dict d)
      end
    /\ forall group,
        dd_get group d
        = EntryPoint_str
          <$> filter (fun e => EntryPoint_group e = group) entrypoints.
Proof.
  intros entrypoints.
  exists (fold_left (fun d e => dd_append (EntryPoint_group e)
                                   (EntryPoint_str e) d) entrypoints []).
  split.
  - rewrite content_lookup_metadata by discriminate.
    unfold entrypoints, dumps_metadata. cbv zeta. skip_segments.
    rewrite dict_lookup_app.
    destruct (RootDependency.entrypoints project); reflexivity.
  - intros group. now rewrite grouping_get.
Qed.

(** [packages] holds the package paths of the project in ascending order
    of their code points, each as often as the project has it; the value of
    [package_data] maps each module to the relative paths of its data
    rules, in ascending order. *)
Theorem dumps_packages_sorted (reqs : list Requirement.t)
  (project : RootDependency.t) (package : Package.t) :
  let content := dumps_content reqs project package in
  let ascending := Sorted (fun a b => PyStr.str_le a b = true) in
  exists packages data,
    dict_lookup "packages" content = Some (str_list packages)
    /\ packages ≡ₚ Package.packages package
    /\ ascending packages
    /\ dict_lookup "package_data" content = Some (str_list_dict data)
    /\ forall module,
        dd_get module data
        ≡ₚ snd <$> filter (fun rule => fst rule = module) (Package.data package)
        /\ ascending (dd_get module data).
Proof.
  intros content ascending.
  exists (PyStr.sorted (Package.packages package)),
    ((fun kv => (fst kv, PyStr.sorted (snd kv)))
     <$> fold_left (fun d rule => dd_append (fst rule) (snd rule) d)
           (Package.data package) []).
  unfold content. rewrite !content_lookup_metadata by discriminate.
  split; [| split; [apply sorted_perm | split; [apply sorted_sorted | split]]].
  - unfold dumps_metadata. cbv zeta. skip_segments. reflexivity.
  - unfold dumps_metadata. cbv zeta. skip_segments. reflexivity.
  - intros module. rewrite dd_get_map_values by reflexivity.
    split; [| apply sorted_sorted].
    rewrite sorted_perm. now rewrite grouping_get.
Qed.

End Keywords.

End KeywordFacts.

(** ** What [load] makes of links, authors, entry points and requirements *)

Module AssemblyFacts.
Import Py SetupPy MonadFacts GetterFacts LoadFacts.

Section Assembly.
Context {MT : ModelTypes} {C : Collaborators}.

(** the root keeps its links, authors and entry points *)
Local Abbreviation same_links r r' :=
  (RootDependency.links r' = RootDependency.links r).
Local Abbreviation same_authors r r' :=
  (RootDependency.authors r' = RootDependency.authors r).
Local Abbreviation same_entrypoints r r' :=
  (RootDependency.entrypoints r' = RootDependency.entrypoints r).

(** *** The stages, one by one *)

Lemma load_links_inv (info : Distribution.t) (r r' : RootDependency.t) :
  load_links info r = Ret r' ->
  same_authors r r' /\ same_entrypoints r r'
  /\ exists url download,
      _get info "url" = Ret url /\ _get info "download_url" = Ret download
      /\ RootDependency.links r'
         = (if String.eqb download "" then fun l => l
            else dict_set "download" download)
             ((if String.eqb url "" then fun l => l else dict_set "home" url)
                (RootDependency.links r)).
Proof.
  unfold load_links. cbn [foldM].
  intros (r1 & (url & Hurl & H1)%bind_ret_inv & H2)%bind_ret_inv.
  apply bind_ret_inv in H2 as (r2 & (download & Hdl & H3)%bind_ret_inv & H4).
  injection H1 as <-. injection H3 as <-. injection H4 as <-.
  repeat split.
  - now destruct (String.eqb url ""), (String.eqb download "").
  - now destruct (String.eqb url ""), (String.eqb download "").
  - exists url, download. repeat split; try assumption.
    now destruct (String.eqb url ""), (String.eqb download "").
Qed.

Lemma load_authors_inv (info : Distribution.t) (r r' : RootDependency.t) :
  load_authors info r = Ret r' ->
  same_links r r' /\ same_entrypoints r r'
  /\ exists author maintainer author_mail maintainer_mail,
      _get info "author" = Ret author
      /\ _get info "maintainer" = Ret maintainer
      /\ (author <> "" -> _get info "author_email" = Ret author_mail)
      /\ (maintainer <> "" ->
          _get info "maintainer_email" = Ret maintainer_mail)
      /\ RootDependency.authors r'
         = RootDependency.authors r
           ++ (if String.eqb author "" then []
               else [Author.mk author author_mail])
           ++ (if String.eqb maintainer "" then []
               else [Author.mk maintainer maintainer_mail]).
Proof.
  unfold load_authors. cbn [foldM].
  change ("author" +:+ "_email") with "author_email".
  change ("maintainer" +:+ "_email") with "maintainer_email".
  intros (r1 & (author & Ha & H1)%bind_ret_inv & H2)%bind_ret_inv.
  apply bind_ret_inv in H2 as (r2 & (maintainer & Hm & H3)%bind_ret_inv & H4).
  injection H4 as <-.
  assert (Hfirst : exists am,
             (author <> "" -> _get info "author_email" = Ret am)
             /\ RootDependency.links r1 = RootDependency.links r
             /\ RootDependency.entrypoints r1 = RootDependency.entrypoints r
             /\ RootDependency.authors r1
                = RootDependency.authors r
                  ++ (if String.eqb author "" then []
                      else [Author.mk author am])).
  { destruct (String.eqb_spec author "") as [->|Hne].
    - injection H1 as <-. exists "". rewrite app_nil_r. repeat split; congruence.
    - apply bind_ret_inv in H1 as (am & Ham & H1). injection H1 as <-.
      exists am. repeat split; auto. }
  assert (Hsecond : exists mm,
             (maintainer <> "" -> _get info "maintainer_email" = Ret mm)
             /\ RootDependency.links r2 = RootDependency.links r1
             /\ RootDependency.entrypoints r2 = RootDependency.entrypoints r1
             /\ RootDependency.authors r2
                = RootDependency.authors r1
                  ++ (if String.eqb maintainer "" then []
                      else [Author.mk maintainer mm])).
  { destruct (String.eqb_spec maintainer "") as [->|Hne].
    - injection H3 as <-. exists "". rewrite app_nil_r. repeat split; congruence.
    - apply bind_ret_inv in H3 as (mm & Hmm & H3). injection H3 as <-.
      exists mm. repeat split; auto. }
  destruct Hfirst as (am & Ham & Hl1 & He1 & Ha1).
  destruct Hsecond as (mm & Hmm & Hl2 & He2 & Ha2).
  split; [congruence |]. split; [congruence |].
  exists author, maintainer, am, mm. repeat split; try assumption.
  rewrite Ha2, Ha1. now rewrite <- app_assoc.
Qed.

(** the entry points parsed from the texts of the groups, in order *)
Local Abbreviation parsed_from groups eps :=
  (Forall2 (fun p e => EntryPoint_parse (fst p) (snd p) = Ret e)
     (flat_map (fun g => (fun text => (text, fst g)) <$> snd g) groups)
     eps).

Lemma parse_loop_inv (group : string) (texts : list pyval)
  (acc acc' : list EntryPoint) :
  foldM (fun entrypoint entrypoints =>
           e ← EntryPoint_parse entrypoint group;
           mret (entrypoints ++ [e]))
    texts acc = Ret acc' ->
  exists eps,
    acc' = acc ++ eps
    /\ Forall2 (fun p e => EntryPoint_parse (fst p) (snd p) = Ret e)
         ((fun text => (text, group)) <$> texts) eps.
Proof.
  revert acc. induction texts as [|text texts' IH]; intros acc; simpl.
  - intros [= <-]. exists []. split; [now rewrite app_nil_r | constructor].
  - intros (acc1 & (e & He & H1)%bind_ret_inv & H2)%bind_ret_inv.
    injection H1 as <-. destruct (IH _ H2) as (eps & -> & Hall).
    exists (e :: eps). split; [now rewrite <- app_assoc |].
    now constructor.
Qed.

Lemma groups_loop_inv (items : list (string * pyval))
  (acc acc' : list EntryPoint) :
  foldM (fun '(group, content) entrypoints =>
           texts ← py_iter content;
           foldM (fun entrypoint entrypoints =>
                    e ← EntryPoint_parse entrypoint group;
                    mret (entrypoints ++ [e]))
             texts entrypoints)
    items acc = Ret acc' ->
  exists groups new,
    Forall2 (fun item g =>
               fst g = fst item /\ py_iter (snd item) = Ret (snd g))
      items groups
    /\ acc' = acc ++ new /\ parsed_from groups new.
Proof.
  revert acc. induction items as [|[group content] items' IH]; intros acc; simpl.
  - intros [= <-]. exists [], []. split; [constructor |].
    split; [now rewrite app_nil_r | constructor].
  - intros (acc1 & (texts & Htexts & Hinner)%bind_ret_inv & Hrest)%bind_ret_inv.
    apply parse_loop_inv in Hinner as (eps1 & -> & Hall1).
    destruct (IH _ Hrest) as (groups & new & Hg & -> & Hnew).
    exists ((group, texts) :: groups), (eps1 ++ new).
    split; [constructor; auto |].
    split; [now rewrite app_assoc |].
    simpl. now apply Forall2_app.
Qed.

Lemma load_entrypoints_inv (info : Distribution.t)
  (r r' : RootDependency.t) :
  load_entrypoints info r = Ret r' ->
  same_links r r' /\ same_authors r r'
  /\ exists items groups,
      py_items
        (let table :=
           getattr (Distribution.attrs info) "entry_points" (PyDict []) in
         if truthy table then table else PyDict [])
      = Ret items
      /\ Forall2 (fun item g =>
                    fst g = fst item /\ py_iter (snd item) = Ret (snd g))
           items groups
      /\ parsed_from groups (RootDependency.entrypoints r').
Proof.
  unfold load_entrypoints. cbv zeta.
  intros (items & Hitems & (eps & Hloop & H)%bind_ret_inv)%bind_ret_inv.
  injection H as <-. split; [reflexivity |]. split; [reflexivity |].
  apply groups_loop_inv in Hloop as (groups & new & Hg & -> & Hnew).
  exists items, groups. auto.
Qed.

Lemma install_loop_inv (root : RootDependency.t) (texts : list string)
  (acc acc' : list Dependency.t) :
  foldM (fun text deps =>
           req ← Requirement_new (PyStr text);
           made ← DependencyMaker_from_requirement root req None;
           mret (deps ++ made))
    texts acc = Ret acc' ->
  exists deps, acc' = acc ++ deps /\ made_from None (PyStr <$> texts) deps.
Proof.
  revert acc. induction texts as [|text texts' IH]; intros acc; simpl.
  - intros [= <-]. exists []. split; [now rewrite app_nil_r | constructor].
  - intros (acc1 & H1 & H2)%bind_ret_inv.
    apply bind_ret_inv in H1 as (req & Hreq & H3).
    apply bind_ret_inv in H3 as (made & Hmade & H4). injection H4 as <-.
    destruct (IH _ H2) as (deps & -> & Hdeps).
    exists (made ++ deps). split; [now rewrite <- app_assoc |].
    econstructor; eassumption.
Qed.

Lemma load_install_requires_made (info : Distribution.t)
  (r r' : RootDependency.t) :
  load_install_requires info r = Ret r' ->
  same_links r r' /\ same_authors r r' /\ same_entrypoints r r'
  /\ exists texts deps,
      _get_list info "install_requires" = Ret texts
      /\ made_from None (PyStr <$> texts) deps
      /\ RootDependency.dependencies r' = RootDependency.dependencies r ++ deps.
Proof.
  unfold load_install_requires.
  intros (texts & Htexts & (deps & Hloop & H)%bind_ret_inv)%bind_ret_inv.
  injection H as <-. repeat split.
  apply install_loop_inv in Hloop as (deps' & -> & Hmade).
  exists texts, deps'. auto.
Qed.

Lemma load_extras_frame (info : Distribution.t) (r r' : RootDependency.t) :
  load_extras info r = Ret r' ->
  same_links r r' /\ same_authors r r' /\ same_entrypoints r r'.
Proof.
  unfold load_extras. intros (items & _ & Hloop)%bind_ret_inv.
  revert Hloop.
  apply (foldM_invariant
           (fun r' => same_links r r' /\ same_authors r r'
                      /\ same_entrypoints r r')); [| auto].
  intros [key reqs] s s' _ Hs H.
  apply bind_ret_inv in H as ([extra marker] & _ & H).
  apply bind_ret_inv in H as (texts & _ & H).
  revert H. unfold load_extra_reqs.
  apply (foldM_invariant
           (fun r' => same_links r r' /\ same_authors r r'
                      /\ same_entrypoints r r')); [| exact Hs].
  intros text t t' _ Ht H.
  apply bind_ret_inv in H as (req & _ & H).
  apply bind_ret_inv in H as (deps & _ & H). injection H as <-. exact Ht.
Qed.

(** *** The whole assembly *)

Lemma load_fill_parts (info : Distribution.t) (r r' : RootDependency.t) :
  load_fill info r = Ret r' ->
  exists r1 r2 r3 r4,
    load_links info r = Ret r1 /\ load_authors info r1 = Ret r2
    /\ load_entrypoints info r2 = Ret r3
    /\ load_install_requires info r3 = Ret r4
    /\ load_extras info r4 = Ret r'.
Proof.
  unfold load_fill.
  intros (r1 & H1 & G1)%bind_ret_inv.
  apply bind_ret_inv in G1 as (r2 & H2 & G2).
  apply bind_ret_inv in G2 as (r3 & H3 & G3).
  apply bind_ret_inv in G3 as (r4 & H4 & G4).
  eauto 10.
Qed.

Lemma load_root_fresh (path : string) (info : Distribution.t) (w w' : World)
  (root : RootDependency.t) :
  load_root path info w = (Ret root, w') ->
  RootDependency.links root = [] /\ RootDependency.authors root = []
  /\ RootDependency.dependencies root = [].
Proof.
  unfold load_root. intros H.
  repeat match goal with
         | H : (_ ≫= _) _ = (Ret _, _) |- _ =>
             apply M_bind_ret_inv in H; destruct H as (? & ? & ? & ?)
         | H : lift _ _ = (_, _) |- _ =>
             apply lift_inv in H; destruct H as [? ?]; subst
         end.
  match goal with
  | H : mret _ _ = (Ret _, _) |- _ => injection H as <- _
  end.
  auto.
Qed.

(** The links of a root returned by [load] are made of the url and the
    download url of the distribution object as [_get] reads them: [home]
    first, [download] second, each present exactly when its value is not
    empty. *)
Theorem load_links_from_urls (path : string) (w w' : World)
  (root : RootDependency.t) :
  load path w = (Ret root, w') ->
  exists info w1 url download,
    load_info path w = (Ret info, w1)
    /\ _get info "url" = Ret url
    /\ _get info "download_url" = Ret download
    /\ RootDependency.links root
       = (if String.eqb url "" then [] else [("home", url)])
         ++ (if String.eqb download "" then [] else [("download", download)]).
Proof.
  intros (info & w1 & root0 & Hinfo & Hroot & Hfill)%load_inv.
  apply load_root_fresh in Hroot as (Hlinks & _).
  apply load_fill_parts in Hfill as (r1 & r2 & r3 & r4 & H1 & H2 & H3 & H4 & H5).
  apply load_links_inv in H1 as (_ & _ & url & download & Hurl & Hdl & Hl1).
  apply load_authors_inv in H2 as (Hl2 & _).
  apply load_entrypoints_inv in H3 as (Hl3 & _).
  apply load_install_requires_made in H4 as (Hl4 & _).
  apply load_extras_frame in H5 as (Hl5 & _).
  exists info, w1, url, download. repeat split; try assumption.
  rewrite Hl5, Hl4, Hl3, Hl2, Hl1, Hlinks.
  now destruct (String.eqb url ""), (String.eqb download "").
Qed.

(** A root returned by [load] has at most two authors: the author of the
    distribution object when its name is not empty, then the maintainer
    when its name is not empty, each with the mail read for it. With no
    author, the maintainer is the first of the list. *)
Theorem load_authors_in_order (path : string) (w w' : World)
  (root : RootDependency.t) :
  load path w = (Ret root, w') ->
  exists info w1 author maintainer author_mail maintainer_mail,
    load_info path w = (Ret info, w1)
    /\ _get info "author" = Ret author
    /\ _get info "maintainer" = Ret maintainer
    /\ (author <> "" -> _get info "author_email" = Ret author_mail)
    /\ (maintainer <> "" -> _get info "maintainer_email" = Ret maintainer_mail)
    /\ RootDependency.authors root
       = (if String.eqb author "" then [] else [Author.mk author author_mail])
         ++ (if String.eqb maintainer "" then []
             else [Author.mk maintainer maintainer_mail])
    /\ length (RootDependency.authors root) <= 2.
Proof.
  intros (info & w1 & root0 & Hinfo & Hroot & Hfill)%load_inv.
  apply load_root_fresh in Hroot as (_ & Hauthors & _).
  apply load_fill_parts in Hfill as (r1 & r2 & r3 & r4 & H1 & H2 & H3 & H4 & H5).
  apply load_links_inv in H1 as (Ha1 & _).
  apply load_authors_inv in H2
    as (_ & _ & author & maintainer & am & mm & Ha & Hm & Ham & Hmm & Ha2).
  apply load_entrypoints_inv in H3 as (_ & Ha3 & _).
  apply load_install_requires_made in H4 as (_ & Ha4 & _).
  apply load_extras_frame in H5 as (_ & Ha5 & _).
  assert (Heq : RootDependency.authors root
                = (if String.eqb author "" then [] else [Author.mk author am])
                  ++ (if String.eqb maintainer "" then []
                      else [Author.mk maintainer mm])).
  { rewrite Ha5, Ha4, Ha3, Ha2, Ha1, Hauthors. reflexivity. }
  exists info, w1, author, maintainer, am, mm.
  repeat split; try assumption.
  rewrite Heq.
  destruct (String.eqb author ""), (String.eqb maintainer ""); simpl; lia.
Qed.

(** The entry points of a root returned by [load] are the results of
    [EntryPoint.parse] on the texts of each group of the [entry_points]
    table, group after group in the order of the table, text after text in
    the order of the group. *)
Theorem load_entrypoints_in_order (path : string) (w w' : World)
  (root : RootDependency.t) :
  load path w = (Ret root, w') ->
  exists info w1 items groups,
    load_info path w = (Ret info, w1)
    /\ py_items
         (let table :=
            getattr (Distribution.attrs info) "entry_points" (PyDict []) in
          if truthy table then table else PyDict [])
       = Ret items
    /\ Forall2 (fun item g =>
                  fst g = fst item /\ py_iter (snd item) = Ret (snd g))
         items groups
    /\ Forall2 (fun p e => EntryPoint_parse (fst p) (snd p) = Ret e)
         (flat_map (fun g => (fun text => (text, fst g)) <$> snd g) groups)
         (RootDependency.entrypoints root).
Proof.
  intros (info & w1 & root0 & Hinfo & Hroot & Hfill)%load_inv.
  apply load_fill_parts in Hfill as (r1 & r2 & r3 & r4 & H1 & H2 & H3 & H4 & H5).
  apply load_entrypoints_inv in H3 as (_ & _ & items & groups & Hi & Hg & He).
  apply load_install_requires_made in H4 as (_ & _ & He4 & _).
  apply load_extras_frame in H5 as (_ & _ & He5).
  exists info, w1, items, groups. repeat split; try assumption.
  now rewrite He5, He4.
Qed.

(** The dependencies of a root returned by [load] begin with those made of
    [install_requires]: one call of [DependencyMaker.from_requirement] with
    no marker for each entry that [_get_list] keeps, in the order of the
    list, their [envs] left as made. The dependencies of the extras come
    after them. *)
Theorem load_unconditional_first (path : string) (w w' : World)
  (root : RootDependency.t) :
  load path w = (Ret root, w') ->
  exists info w1 texts deps groups,
    load_info path w = (Ret info, w1)
    /\ _get_list info "install_requires" = Ret texts
    /\ made_from None (PyStr <$> texts) deps
    /\ RootDependency.dependencies root
       = deps
         ++ flat_map (fun g => Dependency.set_envs (extra_envs (fst g))
                                <$> snd g) groups.
Proof.
  intros (info & w1 & root0 & Hinfo & Hroot & Hfill)%load_inv.
  apply load_root_fresh in Hroot as (_ & _ & Hdeps).
  apply load_fill_parts in Hfill as (r1 & r2 & r3 & r4 & H1 & H2 & H3 & H4 & H5).
  apply load_links_core in H1 as (_ & Hd1).
  apply load_authors_core in H2 as (_ & Hd2).
  apply load_entrypoints_core in H3 as (_ & Hd3).
  apply load_install_requires_made in H4
    as (_ & _ & _ & texts & deps & Htexts & Hmade & Hd4).
  apply load_extras_inv in H5 as (_ & items & groups & _ & _ & Hd5).
  exists info, w1, texts, deps, groups. repeat split; try assumption.
  rewrite Hd5, Hd4, Hd3, Hd2, Hd1, Hdeps. reflexivity.
Qed.

End Assembly.

(** The four theorems on the sample project. *)

Lemma load_links_from_urls_witness :
  exists root w',
    load (C := SampleProject.collaborators) "setup.py" SampleProject.world
    = (Ret root, w')
    /\ RootDependency.links root = [("home", "https://x.org")].
Proof.
  eexists _, _. split; [vm_compute; reflexivity |].
  edestruct (load_links_from_urls (C := SampleProject.collaborators)
               "setup.py" SampleProject.world)
    as (info & w1 & url & download & Hinfo & Hurl & Hdl & Hlinks);
    [vm_compute; reflexivity |].
  vm_compute in Hinfo. injection Hinfo as <- _.
  vm_compute in Hurl. injection Hurl as <-.
  vm_compute in Hdl. injection Hdl as <-.
  exact Hlinks.
Defined.

Lemma load_authors_in_order_witness :
  exists root w',
    load (C := SampleProject.collaborators) "setup.py" SampleProject.world
    = (Ret root, w')
    /\ RootDependency.authors root
       = [Author.mk "Ann" "ann@x.org"; Author.mk "Bob" ""].
Proof.
  eexists _, _. split; [vm_compute; reflexivity |].
  edestruct (load_authors_in_order (C := SampleProject.collaborators)
               "setup.py" SampleProject.world)
    as (info & w1 & a & m & am & mm & _); [vm_compute; reflexivity |].
  reflexivity.
Defined.

Lemma load_entrypoints_in_order_witness :
  exists root w',
    load (C := SampleProject.collaborators) "setup.py" SampleProject.world
    = (Ret root, w')
    /\ RootDependency.entrypoints root
       = [("console_scripts", "x = x:main"); ("console_scripts", "y = x:other")].
Proof.
  eexists _, _. split; [vm_compute; reflexivity |].
  edestruct (load_entrypoints_in_order (C := SampleProject.collaborators)
               "setup.py" SampleProject.world)
    as (info & w1 & items & groups & _); [vm_compute; reflexivity |].
  reflexivity.
Defined.

Lemma load_unconditional_first_witness :
  exists root w',
    load (C := SampleProject.collaborators) "setup.py" SampleProject.world
    = (Ret root, w')
    /\ Dependency.body <$> RootDependency.dependencies root
       = [("flask>=1.0", None); ("click", None)].
Proof.
  eexists _, _. split; [vm_compute; reflexivity |].
  edestruct (load_unconditional_first (C := SampleProject.collaborators)
               "setup.py" SampleProject.world)
    as (info & w1 & texts & deps & groups & _); [vm_compute; reflexivity |].
  reflexivity.
Defined.

End AssemblyFacts.

(** ** The failures of [PackageManager.run] *)

Module RunFailureFacts.
Import Py PackageManager.

Section Failures.
Context {S : Subprocess}.

(** When a child cannot be started, or when the bytes the installer wrote
    to its standard error cannot be decoded, [run] raises that exception
    and logs nothing; in the second case the exit code of the installer is
    lost, also when it is zero. *)
Theorem run_raises_without_logging (self : t) (args : list string)
  (w : World) (e : pyexc) :
  let pipeline :=
    run_pipeline ([executable self; "-m"; "pip"] ++ args)
      [sys_executable; "-m"; "dephell.pip_cleaner"] in
  pipeline = Raise e
  \/ (exists process,
        pipeline = Ret process /\ bytes_decode (stderr process) = Raise e) ->
  run self args w = (Raise e, w).
Proof.
  intros pipeline H. unfold run. fold pipeline.
  destruct H as [-> | (process & -> & Hdecode)]; [reflexivity |].
  unfold mbind at 1. unfold M_bind at 1, lift at 1.
  rewrite Hdecode. reflexivity.
Qed.

End Failures.

Lemma run_raises_without_logging_witness :
  run (S := SampleProject.garbled) (mk "/venv/bin/python") ["check"]
    Sample.empty_world
  = (Raise (mk_exc "UnicodeDecodeError" "'utf-8' codec can't decode bytes" true),
     Sample.empty_world).
Proof.
  apply (run_raises_without_logging (S := SampleProject.garbled)).
  right. exists (mk_completed 0 [Byte.xff]). split; reflexivity.
Defined.

End RunFailureFacts.

(** ** What [dumps] writes is a setup script *)

Module EmitFacts.
Import Py SetupPy MonadFacts PyStrFacts TextFacts.

(** The template names [setuptools] and calls [setup(], whatever is filled
    in. *)
Lemma template_shape (kwargs readme : string) :
  (exists a b, TEMPLATE kwargs readme = a +:+ "setuptools" +:+ b)
  /\ (exists a b, TEMPLATE kwargs readme = a +:+ "setup(" +:+ b).
Proof.
  split.
  - exists "
# -*- coding: utf-8 -*-

# DO NOT EDIT THIS FILE!
# This file has been autogenerated by dephell <3
# https://github.com/dephell/dephell

try:
    from ", (" import setup
except ImportError:
    from distutils.core import setup

" +:+ readme +:+ "

setup(
    long_description=readme,
    " +:+ kwargs +:+ ",
)
"). reflexivity.
  - exists ("
# -*- coding: utf-8 -*-

# DO NOT EDIT THIS FILE!
# This file has been autogenerated by dephell <3
# https://github.com/dephell/dephell

try:
    from setuptools import setup
except ImportError:
    from distutils.core import setup

" +:+ readme +:+ "

"), ("
    long_description=readme,
    " +:+ kwargs +:+ ",
)
").
    unfold TEMPLATE. rewrite !append_assoc. reflexivity.
Qed.

Section Emit.
Context {MT : ModelTypes} {C : Collaborators}.

(** [can_parse] on a text that has both markers. *)
Lemma can_parse_of_contains (path text : string) :
  PyStr.contains "setuptools" text = true ->
  PyStr.contains "setup(" text = true ->
  can_parse path (Some text) = true.
Proof.
  intros Htools Hcall. unfold can_parse.
  destruct (String.eqb (path_name path) "setup.py"); [reflexivity |].
  destruct text as [|c text']; [discriminate |].
  now rewrite Htools, Hcall.
Qed.

(** Without formatters the text is the filled template. *)
Lemma dumps_text (reqs : list Requirement.t) (project : RootDependency.t)
  (package : Package.t) (text : string) :
  FormatCode = None -> fix_code = None ->
  dumps reqs project package = Ret text ->
  exists kwargs readme, text = TEMPLATE kwargs readme.
Proof.
  intros Hformat Hfix. unfold dumps. rewrite Hformat, Hfix.
  generalize (dumps_content reqs project package). intros content.
  destruct (match RootDependency.readme project with
            | Some r => Readme_to_rst_as_code r
            | None => Ret "readme = ''"
            end) as [readme | e]; [| discriminate].
  intros H. eexists _, readme.
  injection H as <-. reflexivity.
Qed.

(** A text with both markers is accepted and is changed by the rewrite. *)
Lemma detected_of_contains (text : string) :
  PyStr.contains "setuptools" text = true ->
  PyStr.contains "setup(" text = true ->
  (forall path, can_parse path (Some text) = true)
  /\ rewritten text <> text.
Proof.
  intros Htools Hcall. split.
  - intros path. now apply can_parse_of_contains.
  - unfold rewritten. intros Hsame%rewrite_noop_iff. congruence.
Qed.

(** When neither yapf nor autopep8 is installed, the text [dumps]
    returns is accepted by [can_parse] under every file name, and the
    rewrite that [_execute] applies before running a script changes it: the
    converter recognises and intercepts the scripts it writes. *)
Theorem dumps_output_is_detected (reqs : list Requirement.t)
  (project : RootDependency.t) (package : Package.t) (text : string) :
  FormatCode = None -> fix_code = None ->
  dumps reqs project package = Ret text ->
  (forall path, can_parse path (Some text) = true)
  /\ rewritten text <> text.
Proof.
  intros Hformat Hfix (kwargs & readme & ->)%dumps_text; [| assumption ..].
  destruct (template_shape kwargs readme) as [Htools Hcall].
  revert Htools Hcall. generalize (TEMPLATE kwargs readme). intros text Htools Hcall.
  apply detected_of_contains; apply contains_iff; solve [discriminate | assumption].
Qed.

End Emit.

(** The theorem on a project with a name and one package. *)
Lemma dumps_output_is_detected_witness :
  exists text,
    dumps (C := SampleProject.collaborators) []
      (RootDependency.new (MT := Sample.types) "x" "0.0.0" "" "" [] [] [] "" None)
      (Package.mk ["x"] [])
    = Ret text
    /\ (forall path,
         can_parse (C := SampleProject.collaborators) path (Some text) = true)
    /\ rewritten text <> text.
Proof.
  eexists. split; [reflexivity |].
  apply (dumps_output_is_detected (C := SampleProject.collaborators)
           [] (RootDependency.new (MT := Sample.types) "x" "0.0.0" "" "" [] [] [] "" None)
      (Package.mk ["x"] [])); reflexivity.
Defined.

End EmitFacts.

(** ** The descriptive fields of a loaded project *)

Module DescriptionFacts.
Import Py SetupPy MonadFacts GetterFacts LoadFacts RereadFacts.

Section Description.
Context {MT : ModelTypes} {C : Collaborators}.

(** the root keeps what the constructor call gave it *)
Local Abbreviation same_description r r' :=
  (RootDependency.description r' = RootDependency.description r
   /\ RootDependency.license r' = RootDependency.license r
   /\ RootDependency.keywords r' = RootDependency.keywords r
   /\ RootDependency.classifiers r' = RootDependency.classifiers r
   /\ RootDependency.platforms r' = RootDependency.platforms r
   /\ RootDependency.python r' = RootDependency.python r
   /\ RootDependency.readme r' = RootDependency.readme r).

Lemma same_description_trans (r1 r2 r3 : RootDependency.t) :
  same_description r1 r2 -> same_description r2 r3 -> same_description r1 r3.
Proof. intros (? & ? & ? & ? & ? & ? & ?) (? & ? & ? & ? & ? & ? & ?).
  repeat split; congruence. Qed.

Lemma load_links_description (info : Distribution.t) (r r' : RootDependency.t) :
  load_links info r = Ret r' -> same_description r r'.
Proof.
  unfold load_links.
  apply (foldM_invariant (fun r' => same_description r r')); [| now auto 10].
  intros [key name] s s' _ Hs (link & _ & H)%bind_ret_inv.
  injection H as <-. now destruct (String.eqb link "").
Qed.

Lemma load_authors_description (info : Distribution.t)
  (r r' : RootDependency.t) :
  load_authors info r = Ret r' -> same_description r r'.
Proof.
  unfold load_authors.
  apply (foldM_invariant (fun r' => same_description r r')); [| now auto 10].
  intros name s s' _ Hs (author & _ & H)%bind_ret_inv.
  destruct (String.eqb author "").
  - now injection H as <-.
  - apply bind_ret_inv in H as (mail & _ & H'). now injection H' as <-.
Qed.

Lemma load_entrypoints_description (info : Distribution.t)
  (r r' : RootDependency.t) :
  load_entrypoints info r = Ret r' -> same_description r r'.
Proof.
  unfold load_entrypoints.
  intros (items & _ & (eps & _ & H)%bind_ret_inv)%bind_ret_inv.
  injection H as <-. now auto 10.
Qed.

Lemma load_install_requires_description (info : Distribution.t)
  (r r' : RootDependency.t) :
  load_install_requires info r = Ret r' -> same_description r r'.
Proof.
  unfold load_install_requires.
  intros (texts & _ & (deps & _ & H)%bind_ret_inv)%bind_ret_inv.
  injection H as <-. now auto 10.
Qed.

Lemma load_extras_description (info : Distribution.t)
  (r r' : RootDependency.t) :
  load_extras info r = Ret r' -> same_description r r'.
Proof.
  unfold load_extras. intros (items & _ & H)%bind_ret_inv. revert H.
  apply (foldM_invariant (fun r' => same_description r r')); [| now auto 10].
  intros [key reqs] s s' _ Hs (em & _ & H)%bind_ret_inv.
  destruct em as [extra marker].
  apply bind_ret_inv in H as (texts & _ & H). revert H. unfold load_extra_reqs.
  apply (foldM_invariant (fun r' => same_description r r')); [| exact Hs].
  intros text t t' _ Ht (req & _ & (deps & _ & H)%bind_ret_inv)%bind_ret_inv.
  injection H as <-. exact Ht.
Qed.

Lemma load_fill_description (info : Distribution.t) (r r' : RootDependency.t) :
  load_fill info r = Ret r' -> same_description r r'.
Proof.
  unfold load_fill.
  intros (r1 & H1%load_links_description & G1)%bind_ret_inv.
  apply bind_ret_inv in G1 as (r2 & H2%load_authors_description & G2).
  apply bind_ret_inv in G2 as (r3 & H3%load_entrypoints_description & G3).
  apply bind_ret_inv in G3
    as (r4 & H4%load_install_requires_description & G4).
  apply load_extras_description in G4.
  eauto using same_description_trans.
Qed.

(** The descriptive fields of a root returned by [load] are those the
    constructor call was given, no later step of [load] touches them:
    description and license as [_get] reads them, keywords, classifiers and
    platforms as [_get_list] reads them, so none of their entries is UNKNOWN
    or blank, the Python range made from what [_get] reads for
    [python_requires], and the readme that [Readme.from_code] found, whose
    effects are the last that [load] has on the process. *)
Theorem load_descriptive_fields (path : string) (w w' : World)
  (root : RootDependency.t) :
  load path w = (Ret root, w') ->
  exists info w1 python_requires,
    load_info path w = (Ret info, w1)
    /\ _get info "description" = Ret (RootDependency.description root)
    /\ _get info "license" = Ret (RootDependency.license root)
    /\ _get_list info "keywords" = Ret (RootDependency.keywords root)
    /\ _get_list info "classifiers" = Ret (RootDependency.classifiers root)
    /\ _get_list info "platforms" = Ret (RootDependency.platforms root)
    /\ _get info "python_requires" = Ret python_requires
    /\ RangeSpecifier_new python_requires = Ret (RootDependency.python root)
    /\ Readme_from_code path w1 = (Ret (RootDependency.readme root), w')
    /\ Forall (fun s => s <> "UNKNOWN" /\ PyStr.strip s <> "")
         (RootDependency.keywords root ++ RootDependency.classifiers root
          ++ RootDependency.platforms root).
Proof.
  intros (info & w1 & root0 & Hinfo & Hroot & Hfill)%load_inv.
  apply load_fill_description in Hfill
    as (Hd & Hl & Hk & Hc & Hp & Hpy & Hr).
  unfold load_root in Hroot.
  repeat match goal with
         | H : (_ ≫= _) _ = (Ret _, _) |- _ =>
             apply M_bind_ret_inv in H; destruct H as (? & ? & ? & ?)
         | H : lift _ _ = (_, _) |- _ =>
             apply lift_inv in H; destruct H as [? ?]; subst
         end.
  match goal with
  | H : mret _ _ = (Ret _, _) |- _ => injection H as <- <-
  end.
  simpl in *. rewrite Hd, Hl, Hk, Hc, Hp, Hpy, Hr.
  eexists info, w1, _. repeat split; try eassumption.
  rewrite !Forall_app. repeat split; eapply get_list_kept; eassumption.
Qed.

End Description.

(** The theorem on a project with a description and keywords. *)
Lemma load_descriptive_fields_witness :
  exists root w',
    load (C := SampleProject.collaborators_described) "setup.py"
      SampleProject.world
    = (Ret root, w')
    /\ RootDependency.description root = "a tool"
    /\ RootDependency.keywords root = ["packaging"; "pip"].
Proof.
  eexists _, _. split; [vm_compute; reflexivity |].
  edestruct (load_descriptive_fields (C := SampleProject.collaborators_described)
               "setup.py" SampleProject.world)
    as (info & w1 & python_requires & Hinfo & Hd & _ & Hk & _);
    [vm_compute; reflexivity |].
  vm_compute in Hinfo. injection Hinfo as <- _.
  split.
  - exact (eq_sym (f_equal (fun o => match o with
                                     | Ret s => s
                                     | Raise _ => ""
                                     end) Hd)).
  - exact (eq_sym (f_equal (fun o => match o with
                                     | Ret l => l
                                     | Raise _ => []
                                     end) Hk)).
Defined.

End DescriptionFacts.
